(** * CreditAnalyzer: transaction execution and monitoring layer

    Shallow embedding of [TransactionTracker], [GasEstimator],
    [TransactionExecutor] and [getTransactionStatus] (the transaction
    utilities module) and of [decryptResult] (src/utils/fhe.ts), with the
    properties the specification states about them.

    Conventions of the embedding
    - a JavaScript [bigint] is a [Z]; [bigint | null | undefined] is an
      [option Z], and JavaScript truthiness of such a value is [truthy];
    - BigInt division truncates toward zero: [Z.quot];
    - an awaited promise has three possible fates: it resolves, it rejects,
      or it never settles ([Outcome]);
    - the [onStatusUpdate] callback is modelled as appending to a trace of
      status updates; [console.log] / [console.error] have no effect on any
      value and are left out;
    - the functions of the ethers library and of the JavaScript number
      formatter are not part of this repository: they are fields of the
      record [Ethers]. *)

From Stdlib Require Import ZArith String List Lia Bool Ascii.
From Stdlib.Strings Require Byte.
Import ListNotations.
Local Open Scope string_scope.
Local Open Scope list_scope.
Local Open Scope Z_scope.

(** ** JavaScript values *)

(** Truthiness of a [bigint | null | undefined]: [null], [undefined] and
    [0n] are falsy. *)
Definition truthy (x : option Z) : bool :=
  match x with
  | Some v => negb (v =? 0)
  | None => false
  end.

(** [x || d] where [d] is a bigint. *)
Definition or_bigint (x : option Z) (d : Z) : Z :=
  match x with
  | Some v => if v =? 0 then d else v
  | None => d
  end.

(** [x || undefined]. *)
Definition or_undefined (x : option Z) : option Z :=
  if truthy x then x else None.

(** [hay.includes(needle)]. *)
Fixpoint includes (needle hay : string) : bool :=
  if prefix needle hay then true
  else match hay with
       | EmptyString => false
       | String _ rest => includes needle rest
       end.

(** Thrown values: the handlers read [error.code] and [error.message]. *)
Module JsError.
Inductive Code : Type :=
| NoCode
| NumCode (n : Z)
| StrCode (s : string).

Record t : Type := mk { code : Code; message : option string }.

(** [new Error(msg)]: no [code]; an [undefined] argument gives the empty
    message. *)
Definition new (msg : option string) : t :=
  {| code := NoCode;
     message := Some (match msg with Some m => m | None => "" end) |}.

(** [error.code === n]. *)
Definition code_is (e : t) (n : Z) : bool :=
  match code e with
  | NumCode k => k =? n
  | _ => false
  end.
End JsError.

(** ** Data model *)

Inductive Status : Type := pending | confirming | confirmed | failed.

Definition terminal (s : Status) : bool :=
  match s with
  | confirmed | failed => true
  | _ => false
  end.

Module TransactionStatus.
Record t : Type := mk {
  hash : option string;
  status : Status;
  confirmations : Z;
  gasUsed : option string;
  effectiveGasPrice : option string;
  blockNumber : option Z;
  error : option string
}.
End TransactionStatus.

Module GasEstimate.
Record t : Type := mk {
  gasLimit : Z;
  gasPrice : Z;
  maxFeePerGas : option Z;
  maxPriorityFeePerGas : option Z;
  estimatedCost : string;
  estimatedCostUSD : option string
}.
End GasEstimate.

(** ethers' [FeeData]: every field is [bigint | null]. *)
Module FeeData.
Record t : Type := mk {
  gasPrice : option Z;
  maxFeePerGas : option Z;
  maxPriorityFeePerGas : option Z
}.
End FeeData.

(** ethers' [TransactionReceipt], the fields the module reads. *)
Module TransactionReceipt.
Record t : Type := mk {
  blockNumber : Z;
  gasUsed : Z;
  gasPrice : option Z;
  status : option Z
}.
End TransactionReceipt.

(** The overrides object passed as last argument of the contract call. *)
Module Overrides.
Record t : Type := mk {
  gasLimit : Z;
  maxFeePerGas : option Z;
  maxPriorityFeePerGas : option Z;
  gasPrice : option Z
}.
End Overrides.

(** The [options] argument of [executeTransaction]. *)
Module Options.
Record t : Type := mk {
  confirmations : option Z;
  timeout : option Z
}.
Definition empty : t := {| confirmations := None; timeout := None |}.
End Options.

(** ** Promises and the status-update trace *)

Inductive Outcome (A : Type) : Type :=
| Returned (a : A)
| Threw (e : JsError.t)
| Unsettled.
Arguments Returned {A} a.
Arguments Threw {A} e.
Arguments Unsettled {A}.

Definition Trace : Type := list TransactionStatus.t.

(** An asynchronous computation that reports through [onStatusUpdate]. *)
Definition Async (A : Type) : Type := Trace -> Outcome A * Trace.

Definition ret {A} (a : A) : Async A := fun tr => (Returned a, tr).

Definition throw {A} (e : JsError.t) : Async A := fun tr => (Threw e, tr).

Definition await {A} (o : Outcome A) : Async A := fun tr => (o, tr).

Definition bind {A B} (m : Async A) (k : A -> Async B) : Async B :=
  fun tr =>
    match m tr with
    | (Returned a, tr') => k a tr'
    | (Threw e, tr') => (Threw e, tr')
    | (Unsettled, tr') => (Unsettled, tr')
    end.

(** [try { body } catch (error) { handler }]: only a thrown value reaches
    the handler; a body stuck on a promise that never settles stays stuck. *)
Definition try_catch {A} (body : Async A) (handler : JsError.t -> Async A)
  : Async A :=
  fun tr =>
    match body tr with
    | (Threw e, tr') => handler e tr'
    | r => r
    end.

Definition onStatusUpdate (s : TransactionStatus.t) : Async unit :=
  fun tr => (Returned tt, tr ++ [s]).

Declare Scope async_scope.
Delimit Scope async_scope with async.
Notation "x <- m ;; k" := (bind m (fun x => k))
  (at level 61, m at next level, right associativity) : async_scope.
Notation "m ;;; k" := (bind m (fun _ => k))
  (at level 61, right associativity) : async_scope.
Local Open Scope async_scope.

(** Run a computation for one invocation: its fate and what it emitted. *)
Definition run {A} (m : Async A) : Outcome A * Trace := m [].
Definition outcome {A} (m : Async A) : Outcome A := fst (run m).
Definition emitted {A} (m : Async A) : Trace := snd (run m).

(** ** External collaborators *)

Record Ethers : Type := {
  (** [ethers.formatUnits(value, unit)] *)
  formatUnits : Z -> string -> string;
  (** [ethers.formatEther(wei)] *)
  formatEther : Z -> Outcome string;
  (** [parseFloat(s).toFixed(6)] *)
  toFixed6 : string -> string
}.

Record Provider : Type := {
  getFeeData : Outcome FeeData.t;
  (** [waitForTransaction(hash, confirms)] *)
  waitForTransaction : string -> Z -> Outcome (option TransactionReceipt.t);
  getTransactionReceipt : string -> Outcome (option TransactionReceipt.t)
}.

(** [ethers.Contract]: [contract[methodName].estimateGas(...args)] and
    [contract[methodName](...args, overrides)]; the sent transaction is
    represented by its [hash]. *)
Record Contract : Type := {
  estimateGas : string -> list string -> Outcome Z;
  send : string -> list string -> Overrides.t -> Outcome string
}.

(** ** GasEstimator *)

Definition defaultEstimate : GasEstimate.t :=
  {| GasEstimate.gasLimit := 200000;
     GasEstimate.gasPrice := 20 * 10 ^ 9; (* parseUnits('20', 'gwei') *)
     GasEstimate.maxFeePerGas := None;
     GasEstimate.maxPriorityFeePerGas := None;
     GasEstimate.estimatedCost := "0.004";
     GasEstimate.estimatedCostUSD := None |}.

Definition estimateContractCall (eth : Ethers) (provider : Provider)
    (contract : Contract) (methodName : string) (args : list string)
  : Async GasEstimate.t :=
  try_catch
    (feeData <- await (getFeeData provider) ;;
     gasLimit <- await (estimateGas contract methodName args) ;;
     let bufferedGasLimit := Z.quot (gasLimit * 120) 100 in
     let gasPrice := or_bigint (FeeData.gasPrice feeData) 0 in
     let maxFeePerGas := FeeData.maxFeePerGas feeData in
     let maxPriorityFeePerGas := FeeData.maxPriorityFeePerGas feeData in
     let maxFeePerGas :=
       if negb (truthy maxFeePerGas) && (0 <? gasPrice)
       then Some gasPrice else maxFeePerGas in
     let estimatedCostWei :=
       bufferedGasLimit * or_bigint maxFeePerGas gasPrice in
     estimatedCostEth <- await (formatEther eth estimatedCostWei) ;;
     ret {| GasEstimate.gasLimit := bufferedGasLimit;
            GasEstimate.gasPrice := gasPrice;
            GasEstimate.maxFeePerGas := or_undefined maxFeePerGas;
            GasEstimate.maxPriorityFeePerGas :=
              or_undefined maxPriorityFeePerGas;
            GasEstimate.estimatedCost := toFixed6 eth estimatedCostEth;
            GasEstimate.estimatedCostUSD := None |})
    (fun _ => ret defaultEstimate).

(** The amount [estimatedCostWei] that [estimateContractCall] formats, as a
    function of the fee data and of the raw gas estimate (lines 115-127). *)
Definition estimatedCostWei (feeData : FeeData.t) (gasLimit : Z) : Z :=
  let gasPrice := or_bigint (FeeData.gasPrice feeData) 0 in
  Z.quot (gasLimit * 120) 100 *
  or_bigint (if negb (truthy (FeeData.maxFeePerGas feeData)) && (0 <? gasPrice)
             then Some gasPrice else FeeData.maxFeePerGas feeData) gasPrice.

(** ** TransactionTracker *)

Definition trackTransaction (eth : Ethers) (provider : Provider)
    (txHash : string) : Async TransactionReceipt.t :=
  onStatusUpdate
    {| TransactionStatus.hash := Some txHash;
       TransactionStatus.status := pending;
       TransactionStatus.confirmations := 0;
       TransactionStatus.gasUsed := None;
       TransactionStatus.effectiveGasPrice := None;
       TransactionStatus.blockNumber := None;
       TransactionStatus.error := None |} ;;;
  try_catch
    (receipt <- await (waitForTransaction provider txHash 1) ;;
     match receipt with
     | None => throw (JsError.new (Some "Transaction receipt not found"))
     | Some receipt =>
       onStatusUpdate
         {| TransactionStatus.hash := Some txHash;
            TransactionStatus.status :=
              match TransactionReceipt.status receipt with
              | Some 1 => confirmed
              | _ => failed
              end;
            TransactionStatus.confirmations := 1;
            TransactionStatus.gasUsed :=
              Some (formatUnits eth (TransactionReceipt.gasUsed receipt) "wei");
            TransactionStatus.effectiveGasPrice :=
              match TransactionReceipt.gasPrice receipt with
              | Some p => if p =? 0 then None
                          else Some (formatUnits eth p "gwei")
              | None => None
              end;
            TransactionStatus.blockNumber :=
              Some (TransactionReceipt.blockNumber receipt);
            TransactionStatus.error := None |} ;;;
       ret receipt
     end)
    (fun error =>
       onStatusUpdate
         {| TransactionStatus.hash := Some txHash;
            TransactionStatus.status := failed;
            TransactionStatus.confirmations := 0;
            TransactionStatus.gasUsed := None;
            TransactionStatus.effectiveGasPrice := None;
            TransactionStatus.blockNumber := None;
            TransactionStatus.error := JsError.message error |} ;;;
       throw error).

(** ** TransactionExecutor *)

(** [error.message?.includes(s)] *)
Definition message_includes (error : JsError.t) (s : string) : bool :=
  match JsError.message error with
  | Some m => includes s m
  | None => false
  end.

(** The [userMessage] computed by the handler of [executeTransaction]. *)
Definition userMessage (error : JsError.t) : option string :=
  if JsError.code_is error 4001 then
    Some "Transaction cancelled by user"
  else if JsError.code_is error (-32603) then
    Some "Transaction failed - insufficient funds or contract error"
  else if message_includes error "insufficient funds" then
    Some "Insufficient ETH balance for gas fees"
  else if message_includes error "user rejected" then
    Some "Transaction rejected by user"
  else if message_includes error "execution reverted" then
    Some "Contract execution failed - check your data"
  else JsError.message error.

(** The overrides object built for the contract call (lines 193-199). *)
Definition txOverrides (gasEstimate : GasEstimate.t) : Overrides.t :=
  {| Overrides.gasLimit := GasEstimate.gasLimit gasEstimate;
     Overrides.maxFeePerGas := GasEstimate.maxFeePerGas gasEstimate;
     Overrides.maxPriorityFeePerGas :=
       GasEstimate.maxPriorityFeePerGas gasEstimate;
     Overrides.gasPrice :=
       if negb (GasEstimate.gasPrice gasEstimate =? 0)
          && negb (truthy (GasEstimate.maxFeePerGas gasEstimate))
       then Some (GasEstimate.gasPrice gasEstimate) else None |}.

Definition failedUpdate (msg : option string) : TransactionStatus.t :=
  {| TransactionStatus.hash := None;
     TransactionStatus.status := failed;
     TransactionStatus.confirmations := 0;
     TransactionStatus.gasUsed := None;
     TransactionStatus.effectiveGasPrice := None;
     TransactionStatus.blockNumber := None;
     TransactionStatus.error := msg |}.

Definition executeTransaction (eth : Ethers) (provider : Provider)
    (contract : Contract) (methodName : string) (args : list string)
    (options : Options.t) : Async TransactionReceipt.t :=
  let confirmations :=
    match Options.confirmations options with Some c => c | None => 1 end in
  let timeout :=
    match Options.timeout options with Some t => t | None => 300000 end in
  try_catch
    (gasEstimate <- estimateContractCall eth provider contract methodName args ;;
     onStatusUpdate
       {| TransactionStatus.hash := None;
          TransactionStatus.status := pending;
          TransactionStatus.confirmations := 0;
          TransactionStatus.gasUsed := None;
          TransactionStatus.effectiveGasPrice := None;
          TransactionStatus.blockNumber := None;
          TransactionStatus.error := None |} ;;;
     tx <- await (send contract methodName args (txOverrides gasEstimate)) ;;
     receipt <- trackTransaction eth provider tx ;;
     ret receipt)
    (fun error =>
       let userMessage := userMessage error in
       onStatusUpdate (failedUpdate userMessage) ;;;
       throw (JsError.new userMessage)).

(** ** Utility functions *)

Definition waitForConfirmations (provider : Provider) (txHash : string)
    (confirmations : option Z) : Async TransactionReceipt.t :=
  let confirmations :=
    match confirmations with Some c => c | None => 1 end in
  receipt <- await (waitForTransaction provider txHash confirmations) ;;
  match receipt with
  | None => throw (JsError.new (Some "Transaction not found"))
  | Some receipt => ret receipt
  end.

Definition getTransactionStatus (provider : Provider) (txHash : string)
  : Async (option TransactionReceipt.t) :=
  try_catch
    (await (getTransactionReceipt provider txHash))
    (fun _ => ret None).

(** ** FHE helpers (src/utils/fhe.ts) *)

Section Fhe.
(** The instance type of fhevmjs, and the byte array built from the hex
    string by [slice], the regular expression, [parseInt] and the
    [Uint8Array] constructor; [decryptResult] builds it and never reads
    it. *)
Variable FhevmInstance : Type.
Variable hexToUint8Array : string -> list Z.

(** [fhevmInstance] is the module-level handle, [null] until
    [initializeFHE] succeeds. *)
Definition decryptResult (fhevmInstance : option FhevmInstance)
    (encryptedResult : string) : Outcome Z :=
  match fhevmInstance with
  | None => Threw (JsError.new (Some "FHE instance not initialized"))
  | Some _ =>
    let bytes := hexToUint8Array encryptedResult in
    Returned 0
  end.
End Fhe.

(** ** FHE helpers, continued (src/utils/fhe.ts)

    A JavaScript string is a Rocq string of its code units, for strings
    whose code units are below 256; an element of a [Uint8Array] is a
    [Byte.byte]. *)

Definition hexDigit (d : N) : ascii :=
  match d with
  | 0 => "0" | 1 => "1" | 2 => "2" | 3 => "3" | 4 => "4" | 5 => "5"
  | 6 => "6" | 7 => "7" | 8 => "8" | 9 => "9" | 10 => "a" | 11 => "b"
  | 12 => "c" | 13 => "d" | 14 => "e" | _ => "f"
  end%N%char.

(** [b.toString(16)] for an element [b] of a [Uint8Array]. *)
Definition toString16 (b : Byte.byte) : string :=
  let n := Byte.to_N b in
  if (n <? 16)%N then String (hexDigit n) EmptyString
  else String (hexDigit (n / 16)) (String (hexDigit (n mod 16)) EmptyString).

(** [s.padStart(2, '0')] *)
Definition padStart2 (s : string) : string :=
  match String.length s with
  | O => "00"
  | S O => String "0" s
  | _ => s
  end.

Definition encryptedToBytes (encrypted : list Byte.byte) : string :=
  String.append "0x"
    (String.concat "" (map (fun b => padStart2 (toString16 b)) encrypted)).

(** The expression that [decryptResult] evaluates into [bytes]
    (lines 83-85), piece by piece. *)

(** [s.slice(start)] for a non-negative [start]. *)
Fixpoint slice (start : nat) (s : string) : string :=
  match start, s with
  | O, _ => s
  | S n, String _ rest => slice n rest
  | S _, EmptyString => EmptyString
  end.

(** Line terminators, which [.] does not match: LF and CR. *)
Definition isLineTerminator (c : ascii) : bool :=
  let n := N_of_ascii c in ((n =? 10) || (n =? 13))%N.

(** White space as [parseInt] skips it: TAB, VT, FF, SP, NBSP and the line
    terminators. *)
Definition isWhiteSpace (c : ascii) : bool :=
  let n := N_of_ascii c in
  ((n =? 9) || (n =? 11) || (n =? 12) || (n =? 32) || (n =? 160))%N
  || isLineTerminator c.

(** [s.match(/.{2}/g)], with [null] (no match) as the empty list: at each
    position two characters other than line terminators are taken, else the
    search moves on by one character. *)
Fixpoint matchPairs (s : string) : list string :=
  match s with
  | String c1 ((String c2 rest) as tl) =>
    if negb (isLineTerminator c1) && negb (isLineTerminator c2)
    then String c1 (String c2 EmptyString) :: matchPairs rest
    else matchPairs tl
  | _ => []
  end.

Definition hexValue (c : ascii) : option Z :=
  let n := Z.of_N (N_of_ascii c) in
  if (48 <=? n) && (n <=? 57) then Some (n - 48)
  else if (97 <=? n) && (n <=? 102) then Some (n - 87)
  else if (65 <=? n) && (n <=? 70) then Some (n - 55)
  else None.

Fixpoint trimStart (s : string) : string :=
  match s with
  | String c rest => if isWhiteSpace c then trimStart rest else s
  | EmptyString => EmptyString
  end.

(** The value of the longest prefix of hexadecimal digits, [None] when
    that prefix is empty. *)
Fixpoint hexPrefixValue (s : string) (acc : option Z) : option Z :=
  match s with
  | String c rest =>
    match hexValue c with
    | Some d =>
      hexPrefixValue rest
        (Some (16 * match acc with Some a => a | None => 0 end + d))
    | None => acc
    end
  | EmptyString => acc
  end.

(** [parseInt(s, 16)], [None] standing for [NaN]: leading white space is
    skipped, then an optional sign, then an optional [0x] or [0X], then the
    longest run of hexadecimal digits is read. *)
Definition parseInt16 (s : string) : option Z :=
  let s := trimStart s in
  let sign :=
    match s with
    | String c _ => if Ascii.eqb c "-" then -1 else 1
    | EmptyString => 1
    end in
  let s :=
    match s with
    | String c rest =>
      if Ascii.eqb c "-" || Ascii.eqb c "+" then rest else s
    | EmptyString => s
    end in
  let s :=
    match s with
    | String c1 (String c2 rest) =>
      if Ascii.eqb c1 "0" && (Ascii.eqb c2 "x" || Ascii.eqb c2 "X")
      then rest else s
    | _ => s
    end in
  match hexPrefixValue s None with
  | Some v => Some (sign * v)
  | None => None
  end.

(** The conversion the [Uint8Array] constructor applies to each number:
    [NaN] becomes 0, an integer is taken modulo 256. *)
Definition toUint8 (x : option Z) : Byte.byte :=
  match x with
  | Some v =>
    match Byte.of_N (Z.to_N (v mod 256)) with
    | Some b => b
    | None => Byte.x00
    end
  | None => Byte.x00
  end.

(** [new Uint8Array(encryptedResult.slice(2).match(/.{2}/g)?.map(byte =>
    parseInt(byte, 16)) || [])] *)
Definition resultBytes (encryptedResult : string) : list Byte.byte :=
  map toUint8 (map parseInt16 (matchPairs (slice 2 encryptedResult))).

Module FheConfig.
Record t : Type := mk {
  chainId : Z;
  publicKeyId : string;
  gatewayUrl : string
}.
End FheConfig.

Definition FHE_CONFIG : FheConfig.t :=
  {| FheConfig.chainId := 11155111;
     FheConfig.publicKeyId :=
       "0x32d07df8db3933e990ad8bf9a8bb0cc7ba4ac58e0c8e04a60cf997b4e8ad9756";
     FheConfig.gatewayUrl := "https://gateway.sepolia.zama.ai" |}.

(** The instance of fhevmjs: its two synchronous encryption methods either
    return the ciphertext or throw. *)
Module FhevmInstance.
Record t : Type := mk {
  encrypt32 : Z -> JsError.t + list Byte.byte;
  encrypt8 : Z -> JsError.t + list Byte.byte
}.
End FhevmInstance.

(** A function that reads and writes the module-level [fhevmInstance]. *)
Definition FheM (A : Type) : Type :=
  option FhevmInstance.t -> Outcome A * option FhevmInstance.t.

Definition initializeFHE
    (createInstance : FheConfig.t -> Outcome FhevmInstance.t)
  : FheM FhevmInstance.t :=
  fun fhevmInstance =>
    match fhevmInstance with
    | Some instance => (Returned instance, fhevmInstance)
    | None =>
      match createInstance FHE_CONFIG with
      | Returned instance => (Returned instance, Some instance)
      | Threw _ =>
        (Threw (JsError.new (Some "Failed to initialize FHE encryption")),
         None)
      | Unsettled => (Unsettled, None)
      end
    end.

(** The promise of an [async] function whose body is a synchronous call. *)
Definition settled {A} (r : JsError.t + A) : Outcome A :=
  match r with
  | inl e => Threw e
  | inr a => Returned a
  end.

Definition encryptUint32 (fhevmInstance : option FhevmInstance.t)
    (value : Z) : Outcome (list Byte.byte) :=
  match fhevmInstance with
  | None => Threw (JsError.new (Some "FHE instance not initialized"))
  | Some instance => settled (FhevmInstance.encrypt32 instance value)
  end.

Definition encryptUint8 (fhevmInstance : option FhevmInstance.t)
    (value : Z) : Outcome (list Byte.byte) :=
  match fhevmInstance with
  | None => Threw (JsError.new (Some "FHE instance not initialized"))
  | Some instance => settled (FhevmInstance.encrypt8 instance value)
  end.

(** [Promise.all([p, q])] for promises that are settled when they are
    passed: the rejection of lowest index wins. *)
Definition both {A B} (p : Outcome A) (q : Outcome B) : Outcome (A * B) :=
  match p, q with
  | Threw e, _ => Threw e
  | Returned a, Returned b => Returned (a, b)
  | Returned _, Threw e => Threw e
  | Returned _, Unsettled => Unsettled
  | Unsettled, Threw e => Threw e
  | Unsettled, _ => Unsettled
  end.

Module CreditData.
Record t : Type := mk {
  income : Z;
  debt : Z;
  age : Z;
  creditHistory : Z;
  paymentHistory : Z
}.
End CreditData.

Module EncryptedCreditData.
Record t : Type := mk {
  encryptedIncome : string;
  encryptedDebt : string;
  encryptedAge : string;
  encryptedCreditHistory : string;
  encryptedPaymentHistory : string
}.
End EncryptedCreditData.

Definition encryptCreditData
    (createInstance : FheConfig.t -> Outcome FhevmInstance.t)
    (data : CreditData.t) : FheM EncryptedCreditData.t :=
  fun fhevmInstance =>
    match initializeFHE createInstance fhevmInstance with
    | (Returned _, fhevmInstance) =>
      (match
          both (encryptUint32 fhevmInstance (CreditData.income data))
         (both (encryptUint32 fhevmInstance (CreditData.debt data))
         (both (encryptUint8 fhevmInstance (CreditData.age data))
         (both (encryptUint8 fhevmInstance (CreditData.creditHistory data))
               (encryptUint8 fhevmInstance (CreditData.paymentHistory data)))))
        with
        | Returned (encryptedIncome, (encryptedDebt, (encryptedAge,
            (encryptedCreditHistory, encryptedPaymentHistory)))) =>
          Returned
            {| EncryptedCreditData.encryptedIncome :=
                 encryptedToBytes encryptedIncome;
               EncryptedCreditData.encryptedDebt :=
                 encryptedToBytes encryptedDebt;
               EncryptedCreditData.encryptedAge :=
                 encryptedToBytes encryptedAge;
               EncryptedCreditData.encryptedCreditHistory :=
                 encryptedToBytes encryptedCreditHistory;
               EncryptedCreditData.encryptedPaymentHistory :=
                 encryptedToBytes encryptedPaymentHistory |}
        | Threw e => Threw e
        | Unsettled => Unsettled
        end, fhevmInstance)
    | (Threw e, fhevmInstance) => (Threw e, fhevmInstance)
    | (Unsettled, fhevmInstance) => (Unsettled, fhevmInstance)
    end.

Module FheStatus.
Record t : Type := mk { isInitialized : bool; config : FheConfig.t }.
End FheStatus.

Definition getFHEStatus (fhevmInstance : option FhevmInstance.t)
  : FheStatus.t :=
  {| FheStatus.isInitialized :=
       match fhevmInstance with Some _ => true | None => false end;
     FheStatus.config := FHE_CONFIG |}.

(** [resetFHE]: the new value of [fhevmInstance]. *)
Definition resetFHE (fhevmInstance : option FhevmInstance.t)
  : option FhevmInstance.t := None.

(** ** Deployment script (scripts/deploy.ts)

    The script is modelled by what it does to the outside world: the files
    it writes, the verification it starts and the exit code of the
    process. The contents of the written files ([JSON.stringify] of the
    deployment record, the template of the constants module) and
    [path.join] are fields of the environment. *)

Module Deploy.
Inductive Event : Type :=
| WriteFile (path content : string)
| Verify (address : string)
| Exit (code : Z).

Record Network : Type := { name : string; chainId : Z }.

Record DeploymentInfo : Type := {
  contractAddress : string;
  deploymentBlock : Z;
  deploymentTime : string;
  network : Network;
  txHash : string
}.

Record Env : Type := {
  getContractFactory : Outcome unit;
  deploy : Outcome unit;
  waitForDeployment : Outcome unit;
  getAddress : Outcome string;
  (** the hash of [deploymentTransaction()], [None] for [null] *)
  deploymentTransaction : option string;
  getBlockNumber : Outcome Z;
  (** [new Date().toISOString()] *)
  now : string;
  getNetwork : Outcome Network;
  cwd : string;
  join : list string -> string;
  (** [JSON.stringify(deploymentInfo, null, 2)] *)
  stringify : DeploymentInfo -> JsError.t + string;
  (** the template of the constants module, for a contract address *)
  constantsContent : string -> string;
  writeFileSync : string -> string -> JsError.t + unit;
  (** [process.env.ETHERSCAN_API_KEY] *)
  ETHERSCAN_API_KEY : option string;
  (** [hre.run("verify:verify", { address, constructorArguments: [] })] *)
  runVerify : string -> Outcome unit
}.

Definition Script (A : Type) : Type :=
  list Event -> Outcome A * list Event.

Definition ret {A} (a : A) : Script A := fun evs => (Returned a, evs).

Definition await {A} (o : Outcome A) : Script A := fun evs => (o, evs).

Definition emit (ev : Event) : Script unit :=
  fun evs => (Returned tt, evs ++ [ev]).

Definition bind {A B} (m : Script A) (k : A -> Script B) : Script B :=
  fun evs =>
    match m evs with
    | (Returned a, evs') => k a evs'
    | (Threw e, evs') => (Threw e, evs')
    | (Unsettled, evs') => (Unsettled, evs')
    end.

Definition try_catch {A} (body : Script A) (handler : JsError.t -> Script A)
  : Script A :=
  fun evs =>
    match body evs with
    | (Threw e, evs') => handler e evs'
    | r => r
    end.

(** [writeFileSync(path, content)] *)
Definition writeFile (env : Env) (path content : string) : Script unit :=
  bind (emit (WriteFile path content))
       (fun _ => await (settled (writeFileSync env path content))).

(** [x && name === "sepolia"] for the environment variable [x]. *)
Definition shouldVerify (key : option string) (networkName : string) : bool :=
  match key with
  | Some k => negb (String.eqb k "") && String.eqb networkName "sepolia"
  | None => false
  end.

Definition deploymentPath (env : Env) (networkName : string) : string :=
  join env
    [cwd env; "deployments";
     String.append "credit-analyzer-" (String.append networkName ".json")].

Definition constantsPath (env : Env) : string :=
  join env [cwd env; "src"; "utils"; "constants.ts"].

Definition main (env : Env) : Script unit :=
  bind (await (getContractFactory env)) (fun _ =>
  bind (await (deploy env)) (fun _ =>
  bind (await (waitForDeployment env)) (fun _ =>
  bind (await (getAddress env)) (fun contractAddress =>
  let deploymentTx := deploymentTransaction env in
  bind (await (getBlockNumber env)) (fun deploymentBlock =>
  bind (await (getNetwork env)) (fun network =>
  let deploymentInfo :=
    {| contractAddress := contractAddress;
       deploymentBlock := deploymentBlock;
       deploymentTime := now env;
       network := network;
       txHash :=
         match deploymentTx with
         | Some h => if String.eqb h "" then "unknown" else h
         | None => "unknown"
         end |} in
  bind (try_catch
          (bind (await (settled (stringify env deploymentInfo)))
                (fun content =>
                   writeFile env (deploymentPath env (name network)) content))
          (fun _ => ret tt)) (fun _ =>
  bind (try_catch
          (writeFile env (constantsPath env)
             (constantsContent env contractAddress))
          (fun _ => ret tt)) (fun _ =>
  if shouldVerify (ETHERSCAN_API_KEY env) (name network)
  then try_catch
         (bind (emit (Verify contractAddress))
               (fun _ => await (runVerify env contractAddress)))
         (fun _ => ret tt)
  else ret tt)))))))).

(** [main().then(() => process.exit(0)).catch(() => process.exit(1))]: the
    events of one execution of the script. *)
Definition script (env : Env) : list Event :=
  match main env [] with
  | (Returned _, evs) => evs ++ [Exit 0]
  | (Threw _, evs) => evs ++ [Exit 1]
  | (Unsettled, evs) => evs
  end.

(** The six awaited steps of the deployment proper. *)
Definition deployed (env : Env) (address : string) (block : Z)
    (net : Network) : Prop :=
  getContractFactory env = Returned tt /\
  deploy env = Returned tt /\
  waitForDeployment env = Returned tt /\
  getAddress env = Returned address /\
  getBlockNumber env = Returned block /\
  getNetwork env = Returned net.

Definition deploymentFailed (env : Env) : Prop :=
  (exists e, getContractFactory env = Threw e) \/
  (getContractFactory env = Returned tt /\
   ((exists e, deploy env = Threw e) \/
    (deploy env = Returned tt /\
     ((exists e, waitForDeployment env = Threw e) \/
      (waitForDeployment env = Returned tt /\
       ((exists e, getAddress env = Threw e) \/
        (exists a, getAddress env = Returned a /\
           ((exists e, getBlockNumber env = Threw e) \/
            (exists b, getBlockNumber env = Returned b /\
               exists e, getNetwork env = Threw e))))))))).
End Deploy.

(** * Properties *)

(** ** Fixtures used to run the model on concrete inputs *)

Definition sampleEthers : Ethers :=
  {| formatUnits := fun _ unit => unit;
     formatEther := fun _ => Returned "0.0";
     toFixed6 := fun s => s |}.

Definition sampleReceipt (st : Z) : TransactionReceipt.t :=
  {| TransactionReceipt.blockNumber := 7;
     TransactionReceipt.gasUsed := 21000;
     TransactionReceipt.gasPrice := Some (20 * 10 ^ 9);
     TransactionReceipt.status := Some st |}.

(** A network with the given fee data on which the wait for a transaction
    has the given fate. *)
Definition sampleProvider (fees : Outcome FeeData.t)
    (wait : Outcome (option TransactionReceipt.t)) : Provider :=
  {| getFeeData := fees;
     waitForTransaction := fun _ _ => wait;
     getTransactionReceipt := fun _ => wait |}.

(** A contract whose gas estimate and submission have the given fates. *)
Definition sampleContract (gas : Outcome Z) (sent : Outcome string)
  : Contract :=
  {| estimateGas := fun _ _ => gas;
     send := fun _ _ _ => sent |}.

Definition legacyFees (p : Z) : FeeData.t :=
  {| FeeData.gasPrice := Some p;
     FeeData.maxFeePerGas := None;
     FeeData.maxPriorityFeePerGas := None |}.

Definition dynamicFees (p mf mp : Z) : FeeData.t :=
  {| FeeData.gasPrice := Some p;
     FeeData.maxFeePerGas := Some mf;
     FeeData.maxPriorityFeePerGas := Some mp |}.

Definition networkError : JsError.t :=
  {| JsError.code := JsError.NoCode;
     JsError.message := Some "could not detect network" |}.

(** The estimate computed from [dynamicFees 10 30 2] and a raw gas estimate
    of 100000. *)
Definition sampleDynamicEstimate : GasEstimate.t :=
  {| GasEstimate.gasLimit := 120000;
     GasEstimate.gasPrice := 10;
     GasEstimate.maxFeePerGas := Some 30;
     GasEstimate.maxPriorityFeePerGas := Some 2;
     GasEstimate.estimatedCost := "0.0";
     GasEstimate.estimatedCostUSD := None |}.

(** ** Vocabulary of the statements *)

(** The ceiling of [rawEstimate * 1.2], following the words of the
    specification. *)
Definition ceilBufferedGasLimit (rawEstimate : Z) : Z :=
  (rawEstimate * 120 + 99) / 100.

(** The fee-scheme invariant in the words of the specification, in its
    weakest reading: only the legacy price (no dynamic-fee field), or the
    dynamic pair with max fee at least the max priority fee. *)
Definition legacyOnly (g : GasEstimate.t) : bool :=
  match GasEstimate.maxFeePerGas g, GasEstimate.maxPriorityFeePerGas g with
  | None, None => true
  | _, _ => false
  end.

Definition dynamicPair (g : GasEstimate.t) : bool :=
  match GasEstimate.maxFeePerGas g, GasEstimate.maxPriorityFeePerGas g with
  | Some mf, Some mp => mp <=? mf
  | _, _ => false
  end.

Definition oneFeeScheme (g : GasEstimate.t) : bool :=
  xorb (legacyOnly g) (dynamicPair g).

Definition pendingUpdate (h : option string) : TransactionStatus.t :=
  TransactionStatus.mk h pending 0 None None None None.

(** The final update [trackTransaction] emits for a receipt. *)
Definition receiptUpdate (eth : Ethers) (txHash : string)
    (receipt : TransactionReceipt.t) : TransactionStatus.t :=
  TransactionStatus.mk (Some txHash)
    (match TransactionReceipt.status receipt with
     | Some 1 => confirmed
     | _ => failed
     end)
    1
    (Some (formatUnits eth (TransactionReceipt.gasUsed receipt) "wei"))
    (match TransactionReceipt.gasPrice receipt with
     | Some p => if p =? 0 then None else Some (formatUnits eth p "gwei")
     | None => None
     end)
    (Some (TransactionReceipt.blockNumber receipt))
    None.

(** The update emitted by the handler of [trackTransaction]. *)
Definition trackingFailedUpdate (txHash : string) (error : JsError.t)
  : TransactionStatus.t :=
  TransactionStatus.mk (Some txHash) failed 0 None None None
    (JsError.message error).

Definition statuses (tr : Trace) : list Status :=
  map TransactionStatus.status tr.

Definition terminalUpdates (tr : Trace) : Trace :=
  filter (fun s => terminal (TransactionStatus.status s)) tr.

Fixpoint noUpdateAfterTerminal (tr : Trace) : bool :=
  match tr with
  | [] => true
  | s :: rest =>
    if terminal (TransactionStatus.status s)
    then match rest with [] => true | _ => false end
    else noUpdateAfterTerminal rest
  end.

Definition receiptNotFound : JsError.t :=
  JsError.new (Some "Transaction receipt not found").

(** What the wait leaves for the handler of [trackTransaction], if
    anything: the rejection of the wait itself, or the error raised for a
    [null] receipt. *)
Definition trackingError (wait : Outcome (option TransactionReceipt.t))
  : option JsError.t :=
  match wait with
  | Threw e => Some e
  | Returned None => Some receiptNotFound
  | _ => None
  end.

(** The run of [executeTransaction] when the tracker raises [e] for the
    transaction [txHash]. *)
Definition trackingFailureRun (txHash : string) (e : JsError.t)
  : Outcome TransactionReceipt.t * Trace :=
  (Threw (JsError.new (userMessage e)),
   [pendingUpdate None; pendingUpdate (Some txHash);
    trackingFailedUpdate txHash e; failedUpdate (userMessage e)]).

(** The messages that stand for the classifications of the
    specification. *)
Definition msgUserCancelled : string := "Transaction cancelled by user".
Definition msgNodeOrContractError : string :=
  "Transaction failed - insufficient funds or contract error".
Definition msgInsufficientFunds : string :=
  "Insufficient ETH balance for gas fees".
Definition msgUserRejected : string := "Transaction rejected by user".
Definition msgContractRejectedInput : string :=
  "Contract execution failed - check your data".

(** A node-level internal error whose message reports insufficient
    funds. *)
Definition internalInsufficientFunds : JsError.t :=
  {| JsError.code := JsError.NumCode (-32603);
     JsError.message :=
       Some "insufficient funds for gas * price + value" |}.

Definition revertedError : JsError.t :=
  {| JsError.code := JsError.StrCode "CALL_EXCEPTION";
     JsError.message := Some "execution reverted: already submitted" |}.

(** A lowercase hexadecimal digit. *)
Definition isLowerHexDigit (c : ascii) : bool :=
  let n := N_of_ascii c in
  (((48 <=? n) && (n <=? 57)) || ((97 <=? n) && (n <=? 102)))%N.

(** An instance whose methods return the given ciphertexts. *)
Definition sampleInstance (c32 c8 : list Byte.byte) : FhevmInstance.t :=
  {| FhevmInstance.encrypt32 := fun _ => inr c32;
     FhevmInstance.encrypt8 := fun _ => inr c8 |}.

Definition sampleCreditData : CreditData.t :=
  {| CreditData.income := 5000;
     CreditData.debt := 1000;
     CreditData.age := 30;
     CreditData.creditHistory := 5;
     CreditData.paymentHistory := 8 |}.

Definition initError : JsError.t :=
  JsError.new (Some "Failed to initialize FHE encryption").

Definition notInitializedError : JsError.t :=
  JsError.new (Some "FHE instance not initialized").

(** A deployment on the given network where every step succeeds except
    that files cannot be written and the verification fails. *)
Definition sampleDeployEnv (networkName : string) (key : option string)
  : Deploy.Env :=
  {| Deploy.getContractFactory := Returned tt;
     Deploy.deploy := Returned tt;
     Deploy.waitForDeployment := Returned tt;
     Deploy.getAddress := Returned "0xC0FFEE";
     Deploy.deploymentTransaction := Some "0xabc";
     Deploy.getBlockNumber := Returned 42;
     Deploy.now := "2024-01-01T00:00:00.000Z";
     Deploy.getNetwork :=
       Returned {| Deploy.name := networkName; Deploy.chainId := 11155111 |};
     Deploy.cwd := "/app";
     Deploy.join := String.concat "/";
     Deploy.stringify := fun info => inr (Deploy.contractAddress info);
     Deploy.constantsContent := fun a => a;
     Deploy.writeFileSync := fun _ _ => inl networkError;
     Deploy.ETHERSCAN_API_KEY := key;
     Deploy.runVerify := fun _ => Threw networkError |}.

(** The same deployment with a failing [deploy()]. *)
Definition sampleFailedDeployEnv : Deploy.Env :=
  {| Deploy.getContractFactory := Returned tt;
     Deploy.deploy := Threw networkError;
     Deploy.waitForDeployment := Returned tt;
     Deploy.getAddress := Returned "0xC0FFEE";
     Deploy.deploymentTransaction := Some "0xabc";
     Deploy.getBlockNumber := Returned 42;
     Deploy.now := "2024-01-01T00:00:00.000Z";
     Deploy.getNetwork :=
       Returned {| Deploy.name := "sepolia"; Deploy.chainId := 11155111 |};
     Deploy.cwd := "/app";
     Deploy.join := String.concat "/";
     Deploy.stringify := fun info => inr (Deploy.contractAddress info);
     Deploy.constantsContent := fun a => a;
     Deploy.writeFileSync := fun _ _ => inr tt;
     Deploy.ETHERSCAN_API_KEY := Some "KEY";
     Deploy.runVerify := fun _ => Returned tt |}.

(** ** Proof support *)

(** Unfold one run of the model down to the fates of the collaborators. *)
Ltac unfold_async :=
  unfold outcome, emitted, run, executeTransaction, trackTransaction,
    estimateContractCall, getTransactionStatus, waitForConfirmations,
    try_catch, bind, await, ret, throw, onStatusUpdate in *.

Lemma or_bigint_truthy (x : option Z) (d : Z) :
  truthy x = true -> Some (or_bigint x d) = x.
Proof.
  destruct x as [v|]; simpl; [|discriminate].
  destruct (v =? 0); simpl; [discriminate | reflexivity].
Qed.

Lemma or_bigint_falsy (x : option Z) (d : Z) :
  truthy x = false -> or_bigint x d = d.
Proof.
  destruct x as [v|]; simpl; [|reflexivity].
  destruct (v =? 0); simpl; [reflexivity | discriminate].
Qed.

Lemma or_undefined_None (x : option Z) :
  or_undefined x = None <-> truthy x = false.
Proof.
  unfold or_undefined. destruct (truthy x) eqn:E; split; auto; try discriminate.
  intros ->. discriminate.
Qed.

(** The computed path of [estimateContractCall]: all three awaited steps
    resolve. *)
Lemma estimateContractCall_computed eth provider contract methodName args
    fd raw s tr :
  getFeeData provider = Returned fd ->
  estimateGas contract methodName args = Returned raw ->
  formatEther eth (estimatedCostWei fd raw) = Returned s ->
  estimateContractCall eth provider contract methodName args tr =
  (Returned
     {| GasEstimate.gasLimit := Z.quot (raw * 120) 100;
        GasEstimate.gasPrice := or_bigint (FeeData.gasPrice fd) 0;
        GasEstimate.maxFeePerGas :=
          or_undefined
            (if negb (truthy (FeeData.maxFeePerGas fd))
                && (0 <? or_bigint (FeeData.gasPrice fd) 0)
             then Some (or_bigint (FeeData.gasPrice fd) 0)
             else FeeData.maxFeePerGas fd);
        GasEstimate.maxPriorityFeePerGas :=
          or_undefined (FeeData.maxPriorityFeePerGas fd);
        GasEstimate.estimatedCost := toFixed6 eth s;
        GasEstimate.estimatedCostUSD := None |}, tr).
Proof.
  intros Hfee Hgas Hfmt. unfold estimatedCostWei in Hfmt.
  unfold_async. rewrite Hfee, Hgas. cbv zeta. rewrite Hfmt. reflexivity.
Qed.

(** [estimateContractCall] emits no status update. *)
Lemma estimateContractCall_silent eth provider contract methodName args tr :
  estimateContractCall eth provider contract methodName args tr =
  (outcome (estimateContractCall eth provider contract methodName args), tr).
Proof.
  unfold_async.
  destruct (getFeeData provider); simpl; auto.
  destruct (estimateGas contract methodName args); simpl; auto.
  destruct (formatEther eth _); simpl; auto.
Qed.

(** The three fates of [estimateContractCall]: stuck on a collaborator that
    never settles, the default estimate, or the computed path. *)
Lemma estimateContractCall_cases eth provider contract methodName args :
  let o := outcome (estimateContractCall eth provider contract methodName args) in
  o = Unsettled \/
  o = Returned defaultEstimate \/
  exists fd raw s,
    getFeeData provider = Returned fd /\
    estimateGas contract methodName args = Returned raw /\
    formatEther eth (estimatedCostWei fd raw) = Returned s.
Proof.
  cbv zeta. unfold estimatedCostWei. unfold_async.
  destruct (getFeeData provider) as [fd|e|] eqn:Hfee; simpl; auto.
  destruct (estimateGas contract methodName args) as [raw|e|] eqn:Hgas;
    simpl; auto.
  destruct (formatEther eth _) as [s|e|] eqn:Hfmt; simpl; auto.
  right; right. exists fd, raw, s. auto.
Qed.

Lemma ceilBufferedGasLimit_is_ceiling (raw : Z) :
  100 * (ceilBufferedGasLimit raw - 1) < 120 * raw <=
  100 * ceilBufferedGasLimit raw.
Proof.
  unfold ceilBufferedGasLimit.
  pose proof (Z.div_mod (raw * 120 + 99) 100 ltac:(lia)).
  pose proof (Z.mod_pos_bound (raw * 120 + 99) 100 ltac:(lia)).
  lia.
Qed.

(** ** GasEstimator: the safety buffer *)

(** C3, as stated, fails: a raw estimate of 100001 gas is buffered to
    120001, below the ceiling 120002 of 100001 * 1.2. *)
Lemma bufferedGasLimit_100001_below_ceiling :
  match outcome (estimateContractCall sampleEthers
                   (sampleProvider (Returned (legacyFees 10)) Unsettled)
                   (sampleContract (Returned 100001) Unsettled)
                   "submitCreditData" []) with
  | Returned g =>
    GasEstimate.gasLimit g = 120001 /\
    ceilBufferedGasLimit 100001 = 120002 /\
    GasEstimate.gasLimit g <> ceilBufferedGasLimit 100001
  | _ => False
  end.
Proof. cbv. repeat split; discriminate. Qed.

(** C3 (amended): for every raw estimate [raw > 0] obtained on the computed
    path, the returned [gasLimit] is [raw * 120] integer-divided by 100,
    that is the floor of [raw * 1.2]; it coincides with the ceiling exactly
    when [raw] is a multiple of 5, and otherwise is one below it. *)
Theorem estimateContractCall_gasLimit_floor eth provider contract methodName
    args fd raw s :
  getFeeData provider = Returned fd ->
  estimateGas contract methodName args = Returned raw ->
  formatEther eth (estimatedCostWei fd raw) = Returned s ->
  0 < raw ->
  exists g,
    run (estimateContractCall eth provider contract methodName args)
    = (Returned g, []) /\
    100 * GasEstimate.gasLimit g <= 120 * raw
      < 100 * (GasEstimate.gasLimit g + 1) /\
    (GasEstimate.gasLimit g = ceilBufferedGasLimit raw <-> raw mod 5 = 0) /\
    (raw mod 5 <> 0 ->
     GasEstimate.gasLimit g = ceilBufferedGasLimit raw - 1).
Proof.
  intros Hfee Hgas Hfmt Hpos.
  eexists. split.
  - unfold run. apply (estimateContractCall_computed _ _ _ _ _ _ _ _ _ Hfee Hgas Hfmt).
  - cbn [GasEstimate.gasLimit].
    rewrite Z.quot_div_nonneg by lia.
    pose proof (ceilBufferedGasLimit_is_ceiling raw) as Hc.
    pose proof (Z.div_mod (raw * 120) 100 ltac:(lia)) as Hd.
    pose proof (Z.mod_pos_bound (raw * 120) 100 ltac:(lia)) as Hm.
    pose proof (Z.div_mod raw 5 ltac:(lia)) as Hd5.
    pose proof (Z.mod_pos_bound raw 5 ltac:(lia)) as Hm5.
    set (q := raw * 120 / 100) in *.
    set (c := ceilBufferedGasLimit raw) in *.
    set (r := (raw * 120) mod 100) in *.
    set (q5 := raw / 5) in *. set (r5 := raw mod 5) in *.
    repeat split; try lia.
Qed.

Lemma estimateContractCall_gasLimit_floor_witness :
  exists g,
    run (estimateContractCall sampleEthers
           (sampleProvider (Returned (legacyFees 10)) Unsettled)
           (sampleContract (Returned 100001) Unsettled) "submitCreditData" [])
    = (Returned g, []) /\
    100 * GasEstimate.gasLimit g <= 120 * 100001
      < 100 * (GasEstimate.gasLimit g + 1) /\
    (GasEstimate.gasLimit g = ceilBufferedGasLimit 100001 <-> 100001 mod 5 = 0) /\
    (100001 mod 5 <> 0 ->
     GasEstimate.gasLimit g = ceilBufferedGasLimit 100001 - 1).
Proof.
  apply (estimateContractCall_gasLimit_floor sampleEthers
           (sampleProvider (Returned (legacyFees 10)) Unsettled)
           (sampleContract (Returned 100001) Unsettled) "submitCreditData" []
           (legacyFees 10) 100001 "0.0");
    [reflexivity | reflexivity | reflexivity | lia].
Defined.

(** ** GasEstimator: the fallback *)

(** C4: [estimateContractCall] never raises, and when the fee-data query,
    the gas-limit estimation or the cost computation throws it returns the
    default estimate: gas limit 200000, legacy gas price 20 gwei, no
    [maxFeePerGas] and no [maxPriorityFeePerGas]. *)
Theorem estimateContractCall_never_raises eth provider contract methodName
    args :
  (forall e,
     outcome (estimateContractCall eth provider contract methodName args)
     <> Threw e) /\
  ((exists e, getFeeData provider = Threw e) \/
   (exists fd e,
      getFeeData provider = Returned fd /\
      estimateGas contract methodName args = Threw e) \/
   (exists fd raw e,
      getFeeData provider = Returned fd /\
      estimateGas contract methodName args = Returned raw /\
      formatEther eth (estimatedCostWei fd raw) = Threw e) ->
   run (estimateContractCall eth provider contract methodName args)
   = (Returned defaultEstimate, [])) /\
  GasEstimate.gasLimit defaultEstimate = 200000 /\
  GasEstimate.gasPrice defaultEstimate = 20 * 1000000000 /\
  GasEstimate.maxFeePerGas defaultEstimate = None /\
  GasEstimate.maxPriorityFeePerGas defaultEstimate = None.
Proof.
  split; [|split; [|repeat split]].
  - intros e.
    destruct (estimateContractCall_cases eth provider contract methodName args)
      as [H|[H|(fd & raw & s & Hfee & Hgas & Hfmt)]].
    + rewrite H. discriminate.
    + rewrite H. discriminate.
    + unfold outcome, run.
      rewrite (estimateContractCall_computed _ _ _ _ _ _ _ _ _ Hfee Hgas Hfmt).
      discriminate.
  - unfold estimatedCostWei.
    intros [(e & Hfee)|[(fd & e & Hfee & Hgas)|(fd & raw & e & Hfee & Hgas & Hfmt)]];
      unfold_async; rewrite Hfee; simpl; try rewrite Hgas; simpl;
      try rewrite Hfmt; reflexivity.
Qed.

Lemma estimateContractCall_never_raises_witness :
  run (estimateContractCall sampleEthers
         (sampleProvider (Threw networkError) Unsettled)
         (sampleContract (Returned 100000) Unsettled) "submitCreditData" [])
  = (Returned defaultEstimate, []).
Proof.
  apply (proj1 (proj2 (estimateContractCall_never_raises sampleEthers
           (sampleProvider (Threw networkError) Unsettled)
           (sampleContract (Returned 100000) Unsettled) "submitCreditData" []))).
  left. exists networkError. reflexivity.
Defined.

(** ** GasEstimator: fee-scheme selection *)

(** C5, as stated, fails. On a legacy network (gas price only) the estimate
    carries the legacy price and a [maxFeePerGas] without a priority fee:
    neither scheme of the invariant. On a dynamic-fee network that also
    reports a gas price, the legacy price and the dynamic pair are all
    populated at once. *)
Lemma estimate_mixes_fee_schemes :
  match outcome (estimateContractCall sampleEthers
                   (sampleProvider (Returned (legacyFees 10)) Unsettled)
                   (sampleContract (Returned 100000) Unsettled)
                   "submitCreditData" []) with
  | Returned g =>
    GasEstimate.gasPrice g = 10 /\
    GasEstimate.maxFeePerGas g = Some 10 /\
    GasEstimate.maxPriorityFeePerGas g = None /\
    oneFeeScheme g = false
  | _ => False
  end /\
  match outcome (estimateContractCall sampleEthers
                   (sampleProvider (Returned (dynamicFees 10 30 2)) Unsettled)
                   (sampleContract (Returned 100000) Unsettled)
                   "submitCreditData" []) with
  | Returned g =>
    GasEstimate.gasPrice g = 10 /\
    GasEstimate.maxFeePerGas g = Some 30 /\
    GasEstimate.maxPriorityFeePerGas g = Some 2
  | _ => False
  end.
Proof. cbv. repeat split. Qed.

(** C5 (amended): every estimate produced by [estimateContractCall] is the
    default estimate (legacy price only) or has its fields determined by
    the network's fee data as follows: [gasPrice] is always populated (0
    when the network reports none); [maxFeePerGas] is populated exactly
    when the network reports a non-zero max fee or a positive gas price;
    [maxPriorityFeePerGas] is the network's non-zero value, if any. The
    legacy price and the dynamic fields may thus be populated together and
    no order between max fee and max priority fee is enforced. Exclusivity
    holds for what [executeTransaction] submits: the overrides never carry
    both a [gasPrice] and a [maxFeePerGas]. *)
Theorem estimateContractCall_fee_fields eth provider contract methodName
    args g :
  outcome (estimateContractCall eth provider contract methodName args)
  = Returned g ->
  (g = defaultEstimate \/
   exists fd,
     getFeeData provider = Returned fd /\
     GasEstimate.gasPrice g = or_bigint (FeeData.gasPrice fd) 0 /\
     (GasEstimate.maxFeePerGas g = None <->
      truthy (FeeData.maxFeePerGas fd) = false /\
      GasEstimate.gasPrice g <= 0) /\
     GasEstimate.maxPriorityFeePerGas g
     = or_undefined (FeeData.maxPriorityFeePerGas fd)) /\
  (Overrides.gasPrice (txOverrides g) = None \/
   Overrides.maxFeePerGas (txOverrides g) = None).
Proof.
  intros Hg. split.
  - destruct (estimateContractCall_cases eth provider contract methodName args)
      as [H|[H|(fd & raw & s & Hfee & Hgas & Hfmt)]].
    + rewrite H in Hg. discriminate.
    + rewrite H in Hg. injection Hg as <-. now left.
    + right. exists fd. split; [exact Hfee|].
      unfold outcome, run in Hg.
      rewrite (estimateContractCall_computed _ _ _ _ _ _ _ _ _ Hfee Hgas Hfmt)
        in Hg.
      injection Hg as <-. cbn [GasEstimate.gasPrice GasEstimate.maxFeePerGas
        GasEstimate.maxPriorityFeePerGas].
      split; [reflexivity|]. split; [|reflexivity].
      rewrite or_undefined_None.
      destruct (truthy (FeeData.maxFeePerGas fd)) eqn:Hmf; simpl.
      * rewrite Hmf. split; [discriminate | intros [? _]; discriminate].
      * destruct (0 <? or_bigint (FeeData.gasPrice fd) 0) eqn:Hgp.
        -- apply Z.ltb_lt in Hgp. simpl.
           destruct (or_bigint (FeeData.gasPrice fd) 0 =? 0) eqn:Hz.
           ++ apply Z.eqb_eq in Hz. lia.
           ++ simpl. split; [discriminate | lia].
        -- apply Z.ltb_ge in Hgp. rewrite Hmf. split; auto.
  - unfold txOverrides. cbn [Overrides.gasPrice Overrides.maxFeePerGas].
    destruct (GasEstimate.maxFeePerGas g) as [mf|] eqn:Hmf; [|now right].
    left. simpl. destruct (mf =? 0) eqn:Hz.
    + (* a zero max fee is never returned *)
      exfalso. apply Z.eqb_eq in Hz. subst mf.
      destruct (estimateContractCall_cases eth provider contract methodName args)
        as [H|[H|(fd & raw & s & Hfee & Hgas & Hfmt)]].
      * rewrite H in Hg. discriminate.
      * rewrite H in Hg. injection Hg as <-. discriminate.
      * unfold outcome, run in Hg.
        rewrite (estimateContractCall_computed _ _ _ _ _ _ _ _ _ Hfee Hgas Hfmt)
          in Hg.
        injection Hg as <-. cbn [GasEstimate.maxFeePerGas] in Hmf.
        unfold or_undefined in Hmf.
        destruct (truthy _) eqn:Ht in Hmf; [|discriminate].
        rewrite Hmf in Ht. discriminate.
    + simpl. rewrite andb_false_r. reflexivity.
Qed.

Lemma estimateContractCall_fee_fields_witness :
  (sampleDynamicEstimate = defaultEstimate \/
   exists fd,
     Returned (dynamicFees 10 30 2) = Returned fd /\
     GasEstimate.gasPrice sampleDynamicEstimate
     = or_bigint (FeeData.gasPrice fd) 0 /\
     (GasEstimate.maxFeePerGas sampleDynamicEstimate = None <->
      truthy (FeeData.maxFeePerGas fd) = false /\
      GasEstimate.gasPrice sampleDynamicEstimate <= 0) /\
     GasEstimate.maxPriorityFeePerGas sampleDynamicEstimate
     = or_undefined (FeeData.maxPriorityFeePerGas fd)) /\
  (Overrides.gasPrice (txOverrides sampleDynamicEstimate) = None \/
   Overrides.maxFeePerGas (txOverrides sampleDynamicEstimate) = None).
Proof.
  apply (estimateContractCall_fee_fields sampleEthers
           (sampleProvider (Returned (dynamicFees 10 30 2)) Unsettled)
           (sampleContract (Returned 100000) Unsettled) "submitCreditData" []
           sampleDynamicEstimate).
  reflexivity.
Defined.

(** C8: when the network's max fee is absent (or zero) and a positive
    legacy gas price [p] is present, the returned [maxFeePerGas] is [p];
    and in every case the cost that is formatted is the buffered gas limit
    times the returned [maxFeePerGas] if set, else times the legacy
    price. *)
Theorem estimateContractCall_legacy_as_maxFee eth provider contract
    methodName args fd raw s :
  getFeeData provider = Returned fd ->
  estimateGas contract methodName args = Returned raw ->
  formatEther eth (estimatedCostWei fd raw) = Returned s ->
  exists g,
    run (estimateContractCall eth provider contract methodName args)
    = (Returned g, []) /\
    GasEstimate.gasLimit g = Z.quot (raw * 120) 100 /\
    GasEstimate.estimatedCost g = toFixed6 eth s /\
    estimatedCostWei fd raw
    = GasEstimate.gasLimit g *
      match GasEstimate.maxFeePerGas g with
      | Some mf => mf
      | None => GasEstimate.gasPrice g
      end /\
    (forall p,
       truthy (FeeData.maxFeePerGas fd) = false ->
       FeeData.gasPrice fd = Some p -> 0 < p ->
       GasEstimate.maxFeePerGas g = Some p /\
       GasEstimate.gasPrice g = p /\
       estimatedCostWei fd raw = GasEstimate.gasLimit g * p).
Proof.
  intros Hfee Hgas Hfmt. eexists. split.
  - unfold run.
    apply (estimateContractCall_computed _ _ _ _ _ _ _ _ _ Hfee Hgas Hfmt).
  - cbn [GasEstimate.gasLimit GasEstimate.estimatedCost GasEstimate.gasPrice
         GasEstimate.maxFeePerGas].
    unfold estimatedCostWei. cbv zeta.
    set (gp := or_bigint (FeeData.gasPrice fd) 0).
    split; [reflexivity|]. split; [reflexivity|]. split.
    + f_equal.
      destruct (truthy (FeeData.maxFeePerGas fd)) eqn:Hmf; simpl.
      * unfold or_undefined. rewrite Hmf.
        pose proof (or_bigint_truthy _ gp Hmf) as E.
        destruct (FeeData.maxFeePerGas fd); [|discriminate].
        now injection E.
      * destruct (0 <? gp) eqn:Hgp.
        -- apply Z.ltb_lt in Hgp. unfold or_undefined. simpl.
           destruct (gp =? 0) eqn:Hz; [apply Z.eqb_eq in Hz; lia|].
           reflexivity.
        -- unfold or_undefined. rewrite Hmf.
           apply or_bigint_falsy. exact Hmf.
    + intros p Hmf Hp Hpos.
      assert (Hgp : gp = p).
      { unfold gp. rewrite Hp. simpl.
        destruct (p =? 0) eqn:Hz; [apply Z.eqb_eq in Hz; lia | reflexivity]. }
      rewrite Hmf, Hgp. simpl.
      assert (Hlt : (0 <? p) = true) by (apply Z.ltb_lt; exact Hpos).
      rewrite Hlt. unfold or_undefined. simpl.
      destruct (p =? 0) eqn:Hz; [apply Z.eqb_eq in Hz; lia|].
      simpl. auto.
Qed.

Lemma estimateContractCall_legacy_as_maxFee_witness :
  exists g,
    run (estimateContractCall sampleEthers
           (sampleProvider (Returned (legacyFees 10)) Unsettled)
           (sampleContract (Returned 100000) Unsettled) "submitCreditData" [])
    = (Returned g, []) /\
    GasEstimate.gasLimit g = Z.quot (100000 * 120) 100 /\
    GasEstimate.estimatedCost g = "0.0" /\
    estimatedCostWei (legacyFees 10) 100000
    = GasEstimate.gasLimit g *
      match GasEstimate.maxFeePerGas g with
      | Some mf => mf
      | None => GasEstimate.gasPrice g
      end /\
    (forall p,
       truthy (FeeData.maxFeePerGas (legacyFees 10)) = false ->
       FeeData.gasPrice (legacyFees 10) = Some p -> 0 < p ->
       GasEstimate.maxFeePerGas g = Some p /\
       GasEstimate.gasPrice g = p /\
       estimatedCostWei (legacyFees 10) 100000 = GasEstimate.gasLimit g * p).
Proof.
  apply (estimateContractCall_legacy_as_maxFee sampleEthers
           (sampleProvider (Returned (legacyFees 10)) Unsettled)
           (sampleContract (Returned 100000) Unsettled) "submitCreditData" []
           (legacyFees 10) 100000 "0.0"); reflexivity.
Defined.

(** ** TransactionTracker *)

Lemma trackTransaction_receipt eth provider txHash receipt tr :
  waitForTransaction provider txHash 1 = Returned (Some receipt) ->
  trackTransaction eth provider txHash tr =
  (Returned receipt,
   tr ++ [pendingUpdate (Some txHash); receiptUpdate eth txHash receipt]).
Proof.
  intros Hw. unfold_async. rewrite Hw. simpl.
  rewrite <- app_assoc. reflexivity.
Qed.

Lemma trackTransaction_error eth provider txHash e tr :
  trackingError (waitForTransaction provider txHash 1) = Some e ->
  trackTransaction eth provider txHash tr =
  (Threw e,
   tr ++ [pendingUpdate (Some txHash); trackingFailedUpdate txHash e]).
Proof.
  intros Hw. unfold_async.
  destruct (waitForTransaction provider txHash 1) as [[r|]|e'|];
    simpl in Hw; try discriminate; injection Hw as <-; simpl;
    rewrite <- app_assoc; reflexivity.
Qed.

Lemma trackTransaction_unsettled eth provider txHash tr :
  waitForTransaction provider txHash 1 = Unsettled ->
  trackTransaction eth provider txHash tr =
  (Unsettled, tr ++ [pendingUpdate (Some txHash)]).
Proof.
  intros Hw. unfold_async. rewrite Hw. reflexivity.
Qed.

(** On its own, [trackTransaction] emits [pending] and then, once the wait
    settles, exactly one terminal update, with nothing after it. *)
Lemma trackTransaction_ordered eth provider txHash :
  let tr := emitted (trackTransaction eth provider txHash) in
  noUpdateAfterTerminal tr = true /\
  (waitForTransaction provider txHash 1 = Unsettled ->
   statuses tr = [pending]) /\
  (waitForTransaction provider txHash 1 <> Unsettled ->
   exists st, terminal st = true /\ statuses tr = [pending; st]).
Proof.
  cbv zeta. unfold emitted, run.
  destruct (waitForTransaction provider txHash 1) as [[r|]|e|] eqn:Hw.
  - rewrite (trackTransaction_receipt _ _ _ _ _ Hw). simpl.
    assert (Ht : terminal (match TransactionReceipt.status r with
                           | Some 1 => confirmed | _ => failed end) = true).
    { destruct (TransactionReceipt.status r) as [[|[| |]|]|]; reflexivity. }
    rewrite Ht. repeat split; [discriminate|]. intros _. eexists; eauto.
  - rewrite (trackTransaction_error eth provider txHash receiptNotFound [])
      by (rewrite Hw; reflexivity).
    simpl. repeat split; [discriminate|]. intros _. exists failed. auto.
  - rewrite (trackTransaction_error eth provider txHash e [])
      by (rewrite Hw; reflexivity).
    simpl. repeat split; [discriminate|]. intros _. exists failed. auto.
  - rewrite (trackTransaction_unsettled _ _ _ _ Hw). simpl.
    repeat split. intros H. now contradiction H.
Qed.

(** ** TransactionExecutor *)

(** The options are destructured and never read afterwards. *)
Lemma executeTransaction_options_unused eth provider contract methodName
    args options options' :
  executeTransaction eth provider contract methodName args options =
  executeTransaction eth provider contract methodName args options'.
Proof. reflexivity. Qed.

(** The run of [executeTransaction] once the estimate is in and the
    submission has been accepted, by the fate of the confirmation wait. *)
Lemma executeTransaction_submitted eth provider contract methodName args
    options g txHash :
  outcome (estimateContractCall eth provider contract methodName args)
  = Returned g ->
  send contract methodName args (txOverrides g) = Returned txHash ->
  run (executeTransaction eth provider contract methodName args options) =
  match waitForTransaction provider txHash 1 with
  | Returned (Some receipt) =>
    (Returned receipt,
     [pendingUpdate None; pendingUpdate (Some txHash);
      receiptUpdate eth txHash receipt])
  | Returned None => trackingFailureRun txHash receiptNotFound
  | Threw e => trackingFailureRun txHash e
  | Unsettled =>
    (Unsettled, [pendingUpdate None; pendingUpdate (Some txHash)])
  end.
Proof.
  intros Hg Hs.
  unfold run, executeTransaction, try_catch, bind at 1.
  rewrite estimateContractCall_silent, Hg.
  unfold bind at 1, onStatusUpdate at 1. unfold bind at 1, await at 1.
  rewrite Hs. unfold bind, ret.
  destruct (waitForTransaction provider txHash 1) as [[r|]|e|] eqn:Hw.
  - rewrite (trackTransaction_receipt _ _ _ _ _ Hw). reflexivity.
  - rewrite (trackTransaction_error eth provider txHash receiptNotFound)
      by (rewrite Hw; reflexivity).
    reflexivity.
  - rewrite (trackTransaction_error eth provider txHash e)
      by (rewrite Hw; reflexivity).
    reflexivity.
  - rewrite (trackTransaction_unsettled _ _ _ _ Hw). reflexivity.
Qed.

(** The run of [executeTransaction] when the submission is rejected. *)
Lemma executeTransaction_rejected eth provider contract methodName args
    options g e :
  outcome (estimateContractCall eth provider contract methodName args)
  = Returned g ->
  send contract methodName args (txOverrides g) = Threw e ->
  run (executeTransaction eth provider contract methodName args options) =
  (Threw (JsError.new (userMessage e)),
   [pendingUpdate None; failedUpdate (userMessage e)]).
Proof.
  intros Hg Hs.
  unfold run, executeTransaction, try_catch, bind at 1.
  rewrite estimateContractCall_silent, Hg.
  unfold bind at 1, onStatusUpdate at 1. unfold bind at 1, await at 1.
  rewrite Hs. reflexivity.
Qed.

(** However long the caller is willing to wait, a confirmation wait that
    never settles leaves [executeTransaction] unsettled, with the two
    [pending] updates emitted and no [failed] one. *)
Lemma executeTransaction_wait_unbounded eth provider contract methodName
    args options g txHash :
  outcome (estimateContractCall eth provider contract methodName args)
  = Returned g ->
  send contract methodName args (txOverrides g) = Returned txHash ->
  waitForTransaction provider txHash 1 = Unsettled ->
  run (executeTransaction eth provider contract methodName args options)
  = (Unsettled, [pendingUpdate None; pendingUpdate (Some txHash)]).
Proof.
  intros Hg Hs Hw.
  rewrite (executeTransaction_submitted _ _ _ _ _ _ _ _ Hg Hs), Hw.
  reflexivity.
Qed.

(** C1 (the code departs from the claim): a submission that the ledger
    accepts and never includes, executed with [timeout: 1000]. The claim
    asks for a failure classified as a timeout and exactly one [failed]
    update; the option is never read, the wait is not bounded, the
    operation never settles and no [failed] update is emitted. *)
Theorem executeTransaction_timeout_not_enforced :
  let r :=
    run (executeTransaction sampleEthers
           (sampleProvider (Returned (legacyFees 10)) Unsettled)
           (sampleContract (Returned 100000) (Returned "0xabc"))
           "submitCreditData" []
           {| Options.confirmations := None; Options.timeout := Some 1000 |}) in
  fst r = Unsettled /\
  snd r = [pendingUpdate None; pendingUpdate (Some "0xabc")] /\
  terminalUpdates (snd r) = [].
Proof. cbv. repeat split. Qed.

(** When the confirmation wait raises (or yields no receipt), both
    handlers run: [trackTransaction] emits [failed] and rethrows, and
    [executeTransaction] emits [failed] again. *)
Lemma executeTransaction_wait_raises_two_failed eth provider contract
    methodName args options g txHash e :
  outcome (estimateContractCall eth provider contract methodName args)
  = Returned g ->
  send contract methodName args (txOverrides g) = Returned txHash ->
  trackingError (waitForTransaction provider txHash 1) = Some e ->
  statuses
    (emitted (executeTransaction eth provider contract methodName args options))
  = [pending; pending; failed; failed].
Proof.
  intros Hg Hs Hw. unfold emitted.
  rewrite (executeTransaction_submitted _ _ _ _ _ _ _ _ Hg Hs).
  destruct (waitForTransaction provider txHash 1) as [[r|]|e'|];
    simpl in Hw; try discriminate; reflexivity.
Qed.

(** C2 (the code departs from the claim): the confirmation wait raises.
    The claim asks for exactly one terminal update and none after it;
    [executeTransaction] delivers [pending], [pending], [failed], [failed]:
    two terminal updates, the second after a terminal one. *)
Theorem executeTransaction_wait_raises_trace :
  let tr :=
    emitted (executeTransaction sampleEthers
               (sampleProvider (Returned (legacyFees 10)) (Threw networkError))
               (sampleContract (Returned 100000) (Returned "0xabc"))
               "submitCreditData" [] Options.empty) in
  tr = [pendingUpdate None; pendingUpdate (Some "0xabc");
        trackingFailedUpdate "0xabc" networkError;
        failedUpdate (Some "could not detect network")] /\
  length (terminalUpdates tr) = 2%nat /\
  noUpdateAfterTerminal tr = false.
Proof. cbv. repeat split. Qed.

(** For a receipt, [trackTransaction] returns it without raising and emits
    one terminal update, [confirmed] exactly when the receipt's status is
    1, whose [confirmations] is the constant 1. *)
Lemma trackTransaction_receipt_update eth provider txHash receipt :
  waitForTransaction provider txHash 1 = Returned (Some receipt) ->
  exists u,
    run (trackTransaction eth provider txHash)
    = (Returned receipt, [pendingUpdate (Some txHash); u]) /\
    TransactionStatus.confirmations u = 1 /\
    (TransactionReceipt.status receipt = Some 1 ->
     TransactionStatus.status u = confirmed) /\
    (TransactionReceipt.status receipt <> Some 1 ->
     TransactionStatus.status u = failed).
Proof.
  intros Hw. exists (receiptUpdate eth txHash receipt).
  unfold run. rewrite (trackTransaction_receipt _ _ _ _ _ Hw).
  repeat split; simpl.
  - intros ->. reflexivity.
  - intros Hne.
    destruct (TransactionReceipt.status receipt) as [[|[| |]|]|];
      try reflexivity.
    now contradiction Hne.
Qed.

(** C6 (the code departs from the claim): a transaction executed with
    [confirmations: 3] whose receipt reports success. The claim asks for a
    terminal update carrying the requested count; the option is never
    read, the wait asks for one confirmation and the [confirmed] update
    carries [confirmations = 1]. *)
Theorem executeTransaction_confirmations_not_requested :
  let r :=
    run (executeTransaction sampleEthers
           (sampleProvider (Returned (legacyFees 10))
              (Returned (Some (sampleReceipt 1))))
           (sampleContract (Returned 100000) (Returned "0xabc"))
           "submitCreditData" []
           {| Options.confirmations := Some 3; Options.timeout := None |}) in
  fst r = Returned (sampleReceipt 1) /\
  map (fun u => (TransactionStatus.status u, TransactionStatus.confirmations u))
      (snd r)
  = [(pending, 0); (pending, 0); (confirmed, 1)].
Proof. cbv. repeat split. Qed.

(** ** Error classification *)

(** C7, as stated, fails: an error with code -32603 whose message contains
    "insufficient funds" is not classified as insufficient-funds; the code
    is looked at first and the error surfaces as a node-or-contract
    error. *)
Lemma insufficient_funds_message_with_internal_code :
  message_includes internalInsufficientFunds "insufficient funds" = true /\
  userMessage internalInsufficientFunds <> Some msgInsufficientFunds /\
  run (executeTransaction sampleEthers
         (sampleProvider (Returned (legacyFees 10)) Unsettled)
         (sampleContract (Returned 100000) (Threw internalInsufficientFunds))
         "submitCreditData" [] Options.empty)
  = (Threw (JsError.new (Some msgNodeOrContractError)),
     [pendingUpdate None; failedUpdate (Some msgNodeOrContractError)]).
Proof. cbv. repeat split. discriminate. Qed.

(** C7 (amended): the error surfaced by [executeTransaction] and the
    [error] of its final [failed] update carry one and the same message,
    a function of the raw error alone, decided in this order: code 4001 is
    user-cancelled; code -32603 is a node-or-contract error; otherwise a
    message containing "insufficient funds" is insufficient-funds;
    otherwise one containing "user rejected" is user-cancelled; otherwise
    one containing "execution reverted" is contract-rejected-input;
    otherwise the classification is unknown and the raw message is kept
    verbatim. This holds for an error raised by the submission and for one
    raised by the confirmation wait alike. *)
Theorem executeTransaction_classification eth provider contract methodName
    args options g e :
  outcome (estimateContractCall eth provider contract methodName args)
  = Returned g ->
  (send contract methodName args (txOverrides g) = Threw e \/
   exists txHash,
     send contract methodName args (txOverrides g) = Returned txHash /\
     trackingError (waitForTransaction provider txHash 1) = Some e) ->
  exists um,
    outcome (executeTransaction eth provider contract methodName args options)
    = Threw (JsError.new um) /\
    last (emitted (executeTransaction eth provider contract methodName args
                     options)) (pendingUpdate None)
    = failedUpdate um /\
    (JsError.code e = JsError.NumCode 4001 -> um = Some msgUserCancelled) /\
    (JsError.code e = JsError.NumCode (-32603) ->
     um = Some msgNodeOrContractError) /\
    (JsError.code_is e 4001 = false ->
     JsError.code_is e (-32603) = false ->
     (message_includes e "insufficient funds" = true ->
      um = Some msgInsufficientFunds) /\
     (message_includes e "insufficient funds" = false ->
      message_includes e "user rejected" = true ->
      um = Some msgUserRejected) /\
     (message_includes e "insufficient funds" = false ->
      message_includes e "user rejected" = false ->
      message_includes e "execution reverted" = true ->
      um = Some msgContractRejectedInput) /\
     (message_includes e "insufficient funds" = false ->
      message_includes e "user rejected" = false ->
      message_includes e "execution reverted" = false ->
      um = JsError.message e /\
      forall m, JsError.message e = Some m ->
                JsError.message (JsError.new um) = Some m)).
Proof.
  intros Hg Hs. exists (userMessage e).
  assert (Hrun :
    outcome (executeTransaction eth provider contract methodName args options)
    = Threw (JsError.new (userMessage e)) /\
    last (emitted (executeTransaction eth provider contract methodName args
                     options)) (pendingUpdate None)
    = failedUpdate (userMessage e)).
  { unfold outcome, emitted.
    destruct Hs as [Hs|(txHash & Hs & Hw)].
    - rewrite (executeTransaction_rejected _ _ _ _ _ _ _ _ Hg Hs).
      split; reflexivity.
    - rewrite (executeTransaction_submitted _ _ _ _ _ _ _ _ Hg Hs).
      destruct (waitForTransaction provider txHash 1) as [[r|]|e'|];
        simpl in Hw; try discriminate; injection Hw as <-;
        split; reflexivity. }
  destruct Hrun as [Ho Hl]. split; [exact Ho|]. split; [exact Hl|].
  unfold userMessage, JsError.code_is.
  split; [intros ->; reflexivity|].
  split; [intros ->; reflexivity|].
  intros H1 H2. rewrite H1, H2.
  split; [intros H3; rewrite H3; reflexivity|].
  split; [intros H3 H4; rewrite H3, H4; reflexivity|].
  split; [intros H3 H4 H5; rewrite H3, H4, H5; reflexivity|].
  intros H3 H4 H5. rewrite H3, H4, H5.
  split; [reflexivity|].
  intros m Hm. rewrite Hm. reflexivity.
Qed.

Lemma executeTransaction_classification_witness :
  exists um,
    outcome (executeTransaction sampleEthers
               (sampleProvider (Returned (legacyFees 10)) Unsettled)
               (sampleContract (Returned 100000) (Threw revertedError))
               "submitCreditData" [] Options.empty)
    = Threw (JsError.new um) /\
    last (emitted (executeTransaction sampleEthers
                     (sampleProvider (Returned (legacyFees 10)) Unsettled)
                     (sampleContract (Returned 100000) (Threw revertedError))
                     "submitCreditData" [] Options.empty))
         (pendingUpdate None)
    = failedUpdate um /\
    um = Some msgContractRejectedInput.
Proof.
  destruct (executeTransaction_classification sampleEthers
              (sampleProvider (Returned (legacyFees 10)) Unsettled)
              (sampleContract (Returned 100000) (Threw revertedError))
              "submitCreditData" [] Options.empty
              {| GasEstimate.gasLimit := 120000;
                 GasEstimate.gasPrice := 10;
                 GasEstimate.maxFeePerGas := Some 10;
                 GasEstimate.maxPriorityFeePerGas := None;
                 GasEstimate.estimatedCost := "0.0";
                 GasEstimate.estimatedCostUSD := None |}
              revertedError eq_refl (or_introl eq_refl))
    as (um & Ho & Hl & _ & _ & Hmsg).
  exists um. split; [exact Ho|]. split; [exact Hl|].
  apply (Hmsg eq_refl eq_refl); reflexivity.
Defined.

(** ** getTransactionStatus *)

(** C10: [getTransactionStatus] never raises; it returns what the
    provider's receipt query returns when that query succeeds, and [null]
    when the query throws. *)
Theorem getTransactionStatus_never_raises provider txHash :
  (forall e, outcome (getTransactionStatus provider txHash) <> Threw e) /\
  (forall r,
     getTransactionReceipt provider txHash = Returned r ->
     run (getTransactionStatus provider txHash) = (Returned r, [])) /\
  (forall e,
     getTransactionReceipt provider txHash = Threw e ->
     run (getTransactionStatus provider txHash) = (Returned None, [])).
Proof.
  unfold_async.
  destruct (getTransactionReceipt provider txHash) as [r|e|]; simpl;
    (split; [intros e' H; discriminate H|]);
    (split; [intros r' H|intros e' H]);
    try discriminate H; try (injection H as <-); reflexivity.
Qed.

Lemma getTransactionStatus_never_raises_witness :
  run (getTransactionStatus
         (sampleProvider (Returned (legacyFees 10)) (Threw networkError))
         "0xabc")
  = (Returned None, []).
Proof.
  apply (proj2 (proj2 (getTransactionStatus_never_raises
           (sampleProvider (Returned (legacyFees 10)) (Threw networkError))
           "0xabc")) networkError).
  reflexivity.
Defined.

(** ** decryptResult *)

(** C9: with the FHE instance initialized, [decryptResult] returns 0 for
    every input string, whatever bytes the string denotes: two inputs are
    never told apart, and a real zero is not told apart from a result that
    could not be decrypted. Without the instance it throws. *)
Theorem decryptResult_always_zero (FhevmInstance : Type)
    (hexToUint8Array : string -> list Z) (instance : FhevmInstance)
    (encryptedResult : string) :
  decryptResult FhevmInstance hexToUint8Array (Some instance) encryptedResult
  = Returned 0 /\
  decryptResult FhevmInstance hexToUint8Array None encryptedResult
  = Threw (JsError.new (Some "FHE instance not initialized")).
Proof. split; reflexivity. Qed.

(** ** FHE helpers: hexadecimal encoding *)

Lemma concat_empty_cons (x : string) (l : list string) :
  String.concat "" (x :: l) = String.append x (String.concat "" l).
Proof.
  destruct l as [|y l]; simpl.
  - clear. induction x as [|c x IH]; simpl; [reflexivity|]. now rewrite <- IH.
  - reflexivity.
Qed.

Lemma hexPair_length (b : Byte.byte) :
  String.length (padStart2 (toString16 b)) = 2%nat.
Proof. destruct b; reflexivity. Qed.

Lemma hexPair_lower (b : Byte.byte) :
  forallb isLowerHexDigit (list_ascii_of_string (padStart2 (toString16 b)))
  = true.
Proof. destruct b; reflexivity. Qed.

Lemma hexPair_matchPairs (b : Byte.byte) (rest : string) :
  matchPairs (String.append (padStart2 (toString16 b)) rest)
  = padStart2 (toString16 b) :: matchPairs rest.
Proof. destruct b; reflexivity. Qed.

Lemma hexPair_parse (b : Byte.byte) :
  toUint8 (parseInt16 (padStart2 (toString16 b))) = b.
Proof. destruct b; reflexivity. Qed.

Lemma string_length_append (s t : string) :
  String.length (String.append s t)
  = (String.length s + String.length t)%nat.
Proof. induction s as [|c s IH]; simpl; [reflexivity | now rewrite IH]. Qed.

Lemma list_ascii_of_string_append (s t : string) :
  list_ascii_of_string (String.append s t)
  = list_ascii_of_string s ++ list_ascii_of_string t.
Proof. induction s as [|c s IH]; simpl; [reflexivity | now rewrite IH]. Qed.

(** X1: the hex string of a ciphertext of [n] bytes is ["0x"] followed by
    exactly [2 * n] lowercase hexadecimal digits. *)
Theorem encryptedToBytes_shape (encrypted : list Byte.byte) :
  prefix "0x" (encryptedToBytes encrypted) = true /\
  String.length (encryptedToBytes encrypted)
  = (2 + 2 * List.length encrypted)%nat /\
  forallb isLowerHexDigit
    (list_ascii_of_string (slice 2 (encryptedToBytes encrypted))) = true.
Proof.
  unfold encryptedToBytes. split.
  { simpl. destruct (String.concat _ _); reflexivity. }
  cbn [String.append String.length slice].
  induction encrypted as [|b bs [IHlen IHhex]]; [split; reflexivity|].
  cbn [map]. rewrite concat_empty_cons. split.
  - rewrite string_length_append, hexPair_length.
    cbn [List.length]. injection IHlen as IHlen. rewrite IHlen. lia.
  - rewrite list_ascii_of_string_append, forallb_app, hexPair_lower, IHhex.
    reflexivity.
Qed.

(** X2: the bytes that [decryptResult] reads back from a hex string are
    the inverse of [encryptedToBytes]: decoding the encoding of any
    ciphertext gives the ciphertext back, so the encoding loses nothing. *)
Theorem resultBytes_encryptedToBytes (encrypted : list Byte.byte) :
  resultBytes (encryptedToBytes encrypted) = encrypted.
Proof.
  unfold resultBytes, encryptedToBytes. cbn [String.append slice].
  induction encrypted as [|b bs IH]; [reflexivity|].
  cbn [map]. rewrite concat_empty_cons, hexPair_matchPairs.
  cbn [map]. rewrite hexPair_parse. f_equal. exact IH.
Qed.

(** ** FHE helpers: the instance handle *)

(** X3: once [initializeFHE] has succeeded, the handle holds the instance
    it returned, the status reports it, and every later call returns that
    same instance without creating another one, whatever the factory
    would do then. *)
Theorem initializeFHE_once create create' fhevmInstance instance st :
  initializeFHE create fhevmInstance = (Returned instance, st) ->
  st = Some instance /\
  FheStatus.isInitialized (getFHEStatus st) = true /\
  initializeFHE create' st = (Returned instance, st).
Proof.
  unfold initializeFHE. intros H.
  destruct fhevmInstance as [i|].
  - injection H as <- <-. repeat split.
  - destruct (create FHE_CONFIG) as [i|e|]; try discriminate.
    injection H as <- <-. repeat split.
Qed.

Lemma initializeFHE_once_witness :
  Some (sampleInstance [Byte.x01] [Byte.x02])
  = Some (sampleInstance [Byte.x01] [Byte.x02]) /\
  FheStatus.isInitialized
    (getFHEStatus (Some (sampleInstance [Byte.x01] [Byte.x02]))) = true /\
  initializeFHE (fun _ => Threw networkError)
    (Some (sampleInstance [Byte.x01] [Byte.x02]))
  = (Returned (sampleInstance [Byte.x01] [Byte.x02]),
     Some (sampleInstance [Byte.x01] [Byte.x02])).
Proof.
  apply (initializeFHE_once
           (fun _ => Returned (sampleInstance [Byte.x01] [Byte.x02]))
           (fun _ => Threw networkError) None).
  reflexivity.
Defined.

(** X4: when the factory throws, [initializeFHE] throws an error with the
    fixed message "Failed to initialize FHE encryption" (the cause is not
    passed on) and leaves the handle empty: the status reports no instance
    and both encryption functions and [decryptResult] throw "FHE instance
    not initialized". *)
Theorem initializeFHE_failure create e value encryptedResult :
  create FHE_CONFIG = Threw e ->
  let r := initializeFHE create None in
  fst r = Threw initError /\
  FheStatus.isInitialized (getFHEStatus (snd r)) = false /\
  encryptUint32 (snd r) value = Threw notInitializedError /\
  encryptUint8 (snd r) value = Threw notInitializedError /\
  decryptResult FhevmInstance.t
    (fun s => map (fun b => Z.of_N (Byte.to_N b)) (resultBytes s))
    (snd r) encryptedResult
  = Threw notInitializedError.
Proof.
  intros H. cbv zeta. unfold initializeFHE. rewrite H. repeat split.
Qed.

Lemma initializeFHE_failure_witness :
  fst (initializeFHE (fun _ => Threw networkError) None) = Threw initError.
Proof.
  apply (initializeFHE_failure (fun _ => Threw networkError) networkError
           0 "0x00").
  reflexivity.
Defined.

(** X5: whatever the handle held, after [resetFHE] the status reports no
    instance, encryption throws "FHE instance not initialized", and the
    next [initializeFHE] asks the factory again and installs the instance
    it returns then. *)
Theorem resetFHE_then_initializeFHE create fhevmInstance instance value :
  create FHE_CONFIG = Returned instance ->
  FheStatus.isInitialized (getFHEStatus (resetFHE fhevmInstance)) = false /\
  encryptUint32 (resetFHE fhevmInstance) value = Threw notInitializedError /\
  encryptUint8 (resetFHE fhevmInstance) value = Threw notInitializedError /\
  initializeFHE create (resetFHE fhevmInstance)
  = (Returned instance, Some instance).
Proof.
  intros H. unfold resetFHE, initializeFHE. rewrite H. repeat split.
Qed.

Lemma resetFHE_then_initializeFHE_witness :
  initializeFHE (fun _ => Returned (sampleInstance [Byte.x03] [Byte.x04]))
    (resetFHE (Some (sampleInstance [Byte.x01] [Byte.x02])))
  = (Returned (sampleInstance [Byte.x03] [Byte.x04]),
     Some (sampleInstance [Byte.x03] [Byte.x04])).
Proof.
  apply (resetFHE_then_initializeFHE
           (fun _ => Returned (sampleInstance [Byte.x03] [Byte.x04]))
           (Some (sampleInstance [Byte.x01] [Byte.x02]))
           (sampleInstance [Byte.x03] [Byte.x04]) 0).
  reflexivity.
Defined.

(** ** FHE helpers: encryptCreditData *)

(** X6: when an instance is available (already installed, or created on
    the way) and its five encryptions succeed, [encryptCreditData] returns
    the hex strings of the five ciphertexts (income and debt through
    [encrypt32], age, credit history and payment history through
    [encrypt8]) and leaves the instance installed. *)
Theorem encryptCreditData_success create data fhevmInstance instance
    cIncome cDebt cAge cCreditHistory cPaymentHistory :
  fst (initializeFHE create fhevmInstance) = Returned instance ->
  FhevmInstance.encrypt32 instance (CreditData.income data) = inr cIncome ->
  FhevmInstance.encrypt32 instance (CreditData.debt data) = inr cDebt ->
  FhevmInstance.encrypt8 instance (CreditData.age data) = inr cAge ->
  FhevmInstance.encrypt8 instance (CreditData.creditHistory data)
  = inr cCreditHistory ->
  FhevmInstance.encrypt8 instance (CreditData.paymentHistory data)
  = inr cPaymentHistory ->
  encryptCreditData create data fhevmInstance =
  (Returned
     {| EncryptedCreditData.encryptedIncome := encryptedToBytes cIncome;
        EncryptedCreditData.encryptedDebt := encryptedToBytes cDebt;
        EncryptedCreditData.encryptedAge := encryptedToBytes cAge;
        EncryptedCreditData.encryptedCreditHistory :=
          encryptedToBytes cCreditHistory;
        EncryptedCreditData.encryptedPaymentHistory :=
          encryptedToBytes cPaymentHistory |},
   Some instance).
Proof.
  intros Hi H1 H2 H3 H4 H5.
  unfold encryptCreditData.
  destruct (initializeFHE create fhevmInstance) as [o st] eqn:Hinit.
  simpl in Hi. subst o.
  destruct (initializeFHE_once create create _ _ _ Hinit) as [-> _].
  unfold encryptUint32, encryptUint8. rewrite H1, H2, H3, H4, H5.
  reflexivity.
Qed.

Lemma encryptCreditData_success_witness :
  encryptCreditData
    (fun _ => Returned (sampleInstance [Byte.x01; Byte.xab] [Byte.x7f]))
    sampleCreditData None =
  (Returned
     {| EncryptedCreditData.encryptedIncome := "0x01ab";
        EncryptedCreditData.encryptedDebt := "0x01ab";
        EncryptedCreditData.encryptedAge := "0x7f";
        EncryptedCreditData.encryptedCreditHistory := "0x7f";
        EncryptedCreditData.encryptedPaymentHistory := "0x7f" |},
   Some (sampleInstance [Byte.x01; Byte.xab] [Byte.x7f])).
Proof.
  apply (encryptCreditData_success
           (fun _ => Returned (sampleInstance [Byte.x01; Byte.xab] [Byte.x7f]))
           sampleCreditData None
           (sampleInstance [Byte.x01; Byte.xab] [Byte.x7f])
           [Byte.x01; Byte.xab] [Byte.x01; Byte.xab]
           [Byte.x7f] [Byte.x7f] [Byte.x7f]); reflexivity.
Defined.

(** X7: [encryptCreditData] initializes before it encrypts, so it never
    fails for want of an instance: an error it throws is either the
    initialization error (no instance was installed and the factory threw,
    and then nothing is encrypted and the handle stays empty), or an error
    thrown by one of the five encryption calls of the instance. *)
Theorem encryptCreditData_failure create data fhevmInstance e :
  fst (encryptCreditData create data fhevmInstance) = Threw e ->
  (fhevmInstance = None /\
   (exists cause, create FHE_CONFIG = Threw cause) /\
   encryptCreditData create data fhevmInstance = (Threw initError, None)) \/
  (exists instance,
     fst (initializeFHE create fhevmInstance) = Returned instance /\
     snd (encryptCreditData create data fhevmInstance) = Some instance /\
     (FhevmInstance.encrypt32 instance (CreditData.income data) = inl e \/
      FhevmInstance.encrypt32 instance (CreditData.debt data) = inl e \/
      FhevmInstance.encrypt8 instance (CreditData.age data) = inl e \/
      FhevmInstance.encrypt8 instance (CreditData.creditHistory data) = inl e \/
      FhevmInstance.encrypt8 instance (CreditData.paymentHistory data) = inl e)).
Proof.
  unfold encryptCreditData.
  destruct (initializeFHE create fhevmInstance) as [o st] eqn:Hinit.
  destruct o as [i|e0|].
  - intros H. right. exists i.
    destruct (initializeFHE_once create create _ _ _ Hinit) as [-> _].
    split; [reflexivity|]. split; [reflexivity|].
    cbn [fst] in H. unfold encryptUint32, encryptUint8 in H.
    destruct (FhevmInstance.encrypt32 i (CreditData.income data)) as [e1|c1];
      [simpl in H; injection H as ->; auto|].
    destruct (FhevmInstance.encrypt32 i (CreditData.debt data)) as [e2|c2];
      [simpl in H; injection H as ->; auto|].
    destruct (FhevmInstance.encrypt8 i (CreditData.age data)) as [e3|c3];
      [simpl in H; injection H as ->; auto|].
    destruct (FhevmInstance.encrypt8 i (CreditData.creditHistory data))
      as [e4|c4]; [simpl in H; injection H as ->; auto 6|].
    destruct (FhevmInstance.encrypt8 i (CreditData.paymentHistory data))
      as [e5|c5]; [simpl in H; injection H as ->; auto 6|].
    simpl in H. discriminate.
  - intros H. left. unfold initializeFHE in Hinit.
    destruct fhevmInstance as [i|]; [discriminate|].
    destruct (create FHE_CONFIG) as [i|cause|]; try discriminate.
    injection Hinit as <- <-. split; [reflexivity|].
    split; [eexists; reflexivity | reflexivity].
  - intros H. discriminate.
Qed.

Lemma encryptCreditData_failure_witness :
  encryptCreditData (fun _ => Threw networkError) sampleCreditData None
  = (Threw initError, None).
Proof.
  destruct (encryptCreditData_failure (fun _ => Threw networkError)
              sampleCreditData None initError eq_refl)
    as [(_ & _ & H)|(i & H & _)].
  - exact H.
  - discriminate H.
Defined.

(** ** TransactionExecutor: every run *)

(** The run of [executeTransaction], by the fates of the estimate, of the
    submission and of the confirmation wait. *)
Lemma executeTransaction_run eth provider contract methodName args options :
  run (executeTransaction eth provider contract methodName args options) =
  match outcome (estimateContractCall eth provider contract methodName args)
  with
  | Unsettled => (Unsettled, [])
  | Threw e =>
    (Threw (JsError.new (userMessage e)), [failedUpdate (userMessage e)])
  | Returned g =>
    match send contract methodName args (txOverrides g) with
    | Unsettled => (Unsettled, [pendingUpdate None])
    | Threw e =>
      (Threw (JsError.new (userMessage e)),
       [pendingUpdate None; failedUpdate (userMessage e)])
    | Returned txHash =>
      match waitForTransaction provider txHash 1 with
      | Returned (Some receipt) =>
        (Returned receipt,
         [pendingUpdate None; pendingUpdate (Some txHash);
          receiptUpdate eth txHash receipt])
      | Returned None => trackingFailureRun txHash receiptNotFound
      | Threw e => trackingFailureRun txHash e
      | Unsettled =>
        (Unsettled, [pendingUpdate None; pendingUpdate (Some txHash)])
      end
    end
  end.
Proof.
  destruct (outcome (estimateContractCall eth provider contract methodName args))
    as [g|e|] eqn:Hg.
  - destruct (send contract methodName args (txOverrides g)) as [h|e|] eqn:Hs.
    + apply (executeTransaction_submitted _ _ _ _ _ _ _ _ Hg Hs).
    + apply (executeTransaction_rejected _ _ _ _ _ _ _ _ Hg Hs).
    + unfold run, executeTransaction, try_catch, bind at 1.
      rewrite estimateContractCall_silent, Hg.
      unfold bind at 1, onStatusUpdate at 1. unfold bind at 1, await at 1.
      rewrite Hs. reflexivity.
  - unfold run, executeTransaction, try_catch, bind at 1.
    rewrite estimateContractCall_silent, Hg. reflexivity.
  - unfold run, executeTransaction, try_catch, bind at 1.
    rewrite estimateContractCall_silent, Hg. reflexivity.
Qed.







(** X11: a failed estimation does not stop the execution. When the
    fee-data query or the gas-limit estimation throws, the transaction is
    still submitted, with the default legacy parameters (gas limit 200000,
    gas price 20 gwei, no dynamic-fee field), and the outcome is decided
    by the submission and the wait alone. *)
Theorem executeTransaction_estimation_failure eth provider contract
    methodName args options :
  (exists e, getFeeData provider = Threw e) \/
  (exists fd e,
     getFeeData provider = Returned fd /\
     estimateGas contract methodName args = Threw e) ->
  let overrides :=
    {| Overrides.gasLimit := 200000;
       Overrides.maxFeePerGas := None;
       Overrides.maxPriorityFeePerGas := None;
       Overrides.gasPrice := Some 20000000000 |} in
  (forall txHash receipt,
     send contract methodName args overrides = Returned txHash ->
     waitForTransaction provider txHash 1 = Returned (Some receipt) ->
     run (executeTransaction eth provider contract methodName args options)
     = (Returned receipt,
        [pendingUpdate None; pendingUpdate (Some txHash);
         receiptUpdate eth txHash receipt])) /\
  (forall e,
     send contract methodName args overrides = Threw e ->
     run (executeTransaction eth provider contract methodName args options)
     = (Threw (JsError.new (userMessage e)),
        [pendingUpdate None; failedUpdate (userMessage e)])).
Proof.
  intros Hfail. cbv zeta.
  assert (Hg : outcome (estimateContractCall eth provider contract methodName
                          args) = Returned defaultEstimate).
  { unfold_async.
    destruct Hfail as [(e & Hfee)|(fd & e & Hfee & Hgas)];
      rewrite Hfee; simpl; try rewrite Hgas; reflexivity. }
  split.
  - intros h r Hs Hw. rewrite executeTransaction_run, Hg.
    change (txOverrides defaultEstimate) with
      {| Overrides.gasLimit := 200000;
         Overrides.maxFeePerGas := None;
         Overrides.maxPriorityFeePerGas := None;
         Overrides.gasPrice := Some 20000000000 |}.
    rewrite Hs, Hw. reflexivity.
  - intros e Hs. rewrite executeTransaction_run, Hg.
    change (txOverrides defaultEstimate) with
      {| Overrides.gasLimit := 200000;
         Overrides.maxFeePerGas := None;
         Overrides.maxPriorityFeePerGas := None;
         Overrides.gasPrice := Some 20000000000 |}.
    rewrite Hs. reflexivity.
Qed.

Lemma executeTransaction_estimation_failure_witness :
  run (executeTransaction sampleEthers
         (sampleProvider (Threw networkError)
            (Returned (Some (sampleReceipt 1))))
         (sampleContract (Returned 100000) (Returned "0xabc"))
         "submitCreditData" [] Options.empty)
  = (Returned (sampleReceipt 1),
     [pendingUpdate None; pendingUpdate (Some "0xabc");
      receiptUpdate sampleEthers "0xabc" (sampleReceipt 1)]).
Proof.
  apply (proj1 (executeTransaction_estimation_failure sampleEthers
           (sampleProvider (Threw networkError)
              (Returned (Some (sampleReceipt 1))))
           (sampleContract (Returned 100000) (Returned "0xabc"))
           "submitCreditData" [] Options.empty
           (or_introl (ex_intro _ networkError eq_refl))));
    reflexivity.
Defined.

(** X12: on the computed path, with a gas price that is not negative, the
    legacy [gasPrice] is never among the submitted overrides. In
    particular on a network without dynamic fees that reports a gas price
    [p > 0], the transaction is submitted with [maxFeePerGas = p], the
    network's priority fee if it reports a non-zero one, and no
    [gasPrice]. *)
Theorem computed_overrides_never_legacy eth provider contract methodName args
    fd raw s :
  getFeeData provider = Returned fd ->
  estimateGas contract methodName args = Returned raw ->
  formatEther eth (estimatedCostWei fd raw) = Returned s ->
  (forall p, FeeData.gasPrice fd = Some p -> 0 <= p) ->
  exists g,
    outcome (estimateContractCall eth provider contract methodName args)
    = Returned g /\
    Overrides.gasPrice (txOverrides g) = None /\
    Overrides.gasLimit (txOverrides g) = Z.quot (raw * 120) 100 /\
    (forall p,
       truthy (FeeData.maxFeePerGas fd) = false ->
       FeeData.gasPrice fd = Some p -> 0 < p ->
       Overrides.maxFeePerGas (txOverrides g) = Some p /\
       Overrides.maxPriorityFeePerGas (txOverrides g)
       = or_undefined (FeeData.maxPriorityFeePerGas fd)).
Proof.
  intros Hfee Hgas Hfmt Hnonneg. eexists. split.
  - unfold outcome, run.
    rewrite (estimateContractCall_computed _ _ _ _ _ _ _ _ _ Hfee Hgas Hfmt).
    reflexivity.
  - unfold txOverrides.
    cbn [Overrides.gasPrice Overrides.gasLimit Overrides.maxFeePerGas
         Overrides.maxPriorityFeePerGas GasEstimate.gasLimit
         GasEstimate.gasPrice GasEstimate.maxFeePerGas
         GasEstimate.maxPriorityFeePerGas].
    set (gp := or_bigint (FeeData.gasPrice fd) 0).
    assert (Hgp : 0 <= gp).
    { unfold gp. destruct (FeeData.gasPrice fd) as [p|] eqn:Hp; simpl; [|lia].
      specialize (Hnonneg p eq_refl). destruct (p =? 0); lia. }
    split; [|split; [reflexivity|]].
    + destruct (gp =? 0) eqn:Hz; [reflexivity|]. apply Z.eqb_neq in Hz.
      assert (Hlt : (0 <? gp) = true) by (apply Z.ltb_lt; lia).
      rewrite Hlt. simpl.
      destruct (truthy (FeeData.maxFeePerGas fd)) eqn:Hmf; simpl.
      * unfold or_undefined. rewrite Hmf, Hmf. reflexivity.
      * assert (Hz' : (gp =? 0) = false) by (apply Z.eqb_neq; exact Hz).
        unfold or_undefined. simpl. repeat (rewrite Hz'; simpl).
        reflexivity.
    + intros p Hmf Hp Hpos.
      assert (Hgpp : gp = p).
      { unfold gp. rewrite Hp. simpl.
        destruct (p =? 0) eqn:Hz; [apply Z.eqb_eq in Hz; lia | reflexivity]. }
      rewrite Hmf, Hgpp.
      assert (Hlt : (0 <? p) = true) by (apply Z.ltb_lt; exact Hpos).
      rewrite Hlt. simpl. unfold or_undefined at 1. simpl.
      destruct (p =? 0) eqn:Hz; [apply Z.eqb_eq in Hz; lia|].
      split; reflexivity.
Qed.

Lemma computed_overrides_never_legacy_witness :
  exists g,
    outcome (estimateContractCall sampleEthers
               (sampleProvider (Returned (legacyFees 10)) Unsettled)
               (sampleContract (Returned 100000) Unsettled)
               "submitCreditData" [])
    = Returned g /\
    Overrides.gasPrice (txOverrides g) = None /\
    Overrides.gasLimit (txOverrides g) = Z.quot (100000 * 120) 100 /\
    (forall p,
       truthy (FeeData.maxFeePerGas (legacyFees 10)) = false ->
       FeeData.gasPrice (legacyFees 10) = Some p -> 0 < p ->
       Overrides.maxFeePerGas (txOverrides g) = Some p /\
       Overrides.maxPriorityFeePerGas (txOverrides g)
       = or_undefined (FeeData.maxPriorityFeePerGas (legacyFees 10))).
Proof.
  apply (computed_overrides_never_legacy sampleEthers
           (sampleProvider (Returned (legacyFees 10)) Unsettled)
           (sampleContract (Returned 100000) Unsettled)
           "submitCreditData" [] (legacyFees 10) 100000 "0.0");
    try reflexivity.
  intros p H. injection H as <-. lia.
Defined.

(** X13: when the network reports no usable fee at all (each field [null]
    or zero) and the gas-limit estimation succeeds, the estimator does not
    fall back to its 20 gwei default: it returns a gas price of 0, no
    dynamic-fee field and the formatted cost of 0 wei, and the transaction
    is then submitted with a gas limit and no fee parameter. *)
Theorem estimateContractCall_no_fee_data eth provider contract methodName
    args fd raw s :
  getFeeData provider = Returned fd ->
  truthy (FeeData.gasPrice fd) = false ->
  truthy (FeeData.maxFeePerGas fd) = false ->
  truthy (FeeData.maxPriorityFeePerGas fd) = false ->
  estimateGas contract methodName args = Returned raw ->
  formatEther eth 0 = Returned s ->
  run (estimateContractCall eth provider contract methodName args)
  = (Returned
       {| GasEstimate.gasLimit := Z.quot (raw * 120) 100;
          GasEstimate.gasPrice := 0;
          GasEstimate.maxFeePerGas := None;
          GasEstimate.maxPriorityFeePerGas := None;
          GasEstimate.estimatedCost := toFixed6 eth s;
          GasEstimate.estimatedCostUSD := None |}, []) /\
  forall g,
    outcome (estimateContractCall eth provider contract methodName args)
    = Returned g ->
    txOverrides g
    = {| Overrides.gasLimit := Z.quot (raw * 120) 100;
         Overrides.maxFeePerGas := None;
         Overrides.maxPriorityFeePerGas := None;
         Overrides.gasPrice := None |}.
Proof.
  intros Hfee Hgp Hmf Hmp Hgas Hfmt.
  assert (Hcost : estimatedCostWei fd raw = 0).
  { unfold estimatedCostWei. cbv zeta.
    rewrite (or_bigint_falsy _ 0 Hgp), Hmf. simpl.
    rewrite (or_bigint_falsy _ 0 Hmf). lia. }
  rewrite <- Hcost in Hfmt.
  assert (Hrun := estimateContractCall_computed eth provider contract
                    methodName args fd raw s [] Hfee Hgas Hfmt).
  rewrite (or_bigint_falsy _ 0 Hgp), Hmf in Hrun. simpl in Hrun.
  unfold or_undefined in Hrun. rewrite Hmf, Hmp in Hrun.
  split; [exact Hrun|].
  intros g Hg. unfold outcome, run in Hg. rewrite Hrun in Hg.
  injection Hg as <-. reflexivity.
Qed.

Lemma estimateContractCall_no_fee_data_witness :
  run (estimateContractCall sampleEthers
         (sampleProvider (Returned (FeeData.mk None (Some 0) None)) Unsettled)
         (sampleContract (Returned 100000) Unsettled) "submitCreditData" [])
  = (Returned
       {| GasEstimate.gasLimit := Z.quot (100000 * 120) 100;
          GasEstimate.gasPrice := 0;
          GasEstimate.maxFeePerGas := None;
          GasEstimate.maxPriorityFeePerGas := None;
          GasEstimate.estimatedCost := "0.0";
          GasEstimate.estimatedCostUSD := None |}, []).
Proof.
  apply (proj1 (estimateContractCall_no_fee_data sampleEthers
           (sampleProvider (Returned (FeeData.mk None (Some 0) None)) Unsettled)
           (sampleContract (Returned 100000) Unsettled) "submitCreditData" []
           (FeeData.mk None (Some 0) None) 100000 "0.0"
           eq_refl eq_refl eq_refl eq_refl eq_refl eq_refl)).
Defined.

(** X14: the 20% buffer adds one fifth of the raw estimate, rounded down:
    for a raw estimate [raw >= 0] the returned gas limit is
    [raw + raw / 5]. It is never below the raw estimate, and it equals the
    raw estimate (no margin at all) exactly when [raw < 5]. *)
Theorem estimateContractCall_buffer_margin eth provider contract methodName
    args fd raw s :
  getFeeData provider = Returned fd ->
  estimateGas contract methodName args = Returned raw ->
  formatEther eth (estimatedCostWei fd raw) = Returned s ->
  0 <= raw ->
  exists g,
    outcome (estimateContractCall eth provider contract methodName args)
    = Returned g /\
    GasEstimate.gasLimit g = raw + raw / 5 /\
    raw <= GasEstimate.gasLimit g /\
    (GasEstimate.gasLimit g = raw <-> raw < 5).
Proof.
  intros Hfee Hgas Hfmt Hraw. eexists. split.
  - unfold outcome, run.
    rewrite (estimateContractCall_computed _ _ _ _ _ _ _ _ _ Hfee Hgas Hfmt).
    reflexivity.
  - cbn [GasEstimate.gasLimit]. rewrite Z.quot_div_nonneg by lia.
    pose proof (Z.div_mod (raw * 120) 100 ltac:(lia)) as Hd.
    pose proof (Z.mod_pos_bound (raw * 120) 100 ltac:(lia)) as Hm.
    pose proof (Z.div_mod raw 5 ltac:(lia)) as Hd5.
    pose proof (Z.mod_pos_bound raw 5 ltac:(lia)) as Hm5.
    set (q := raw * 120 / 100) in *. set (r := (raw * 120) mod 100) in *.
    set (q5 := raw / 5) in *. set (r5 := raw mod 5) in *.
    assert (Hq : q = raw + q5) by lia.
    repeat split; lia.
Qed.

Lemma estimateContractCall_buffer_margin_witness :
  exists g,
    outcome (estimateContractCall sampleEthers
               (sampleProvider (Returned (legacyFees 10)) Unsettled)
               (sampleContract (Returned 4) Unsettled) "submitCreditData" [])
    = Returned g /\
    GasEstimate.gasLimit g = 4 + 4 / 5 /\
    4 <= GasEstimate.gasLimit g /\
    (GasEstimate.gasLimit g = 4 <-> 4 < 5).
Proof.
  apply (estimateContractCall_buffer_margin sampleEthers
           (sampleProvider (Returned (legacyFees 10)) Unsettled)
           (sampleContract (Returned 4) Unsettled) "submitCreditData" []
           (legacyFees 10) 4 "0.0"); [reflexivity | reflexivity | reflexivity | lia].
Defined.

(** ** TransactionTracker and waitForConfirmations: failures *)



(** X16: [waitForConfirmations] asks the provider for the given number of
    confirmations (1 when none is given) and emits no status update. With
    the default count it returns a receipt exactly when [trackTransaction]
    does; a missing receipt makes it throw "Transaction not found", and an
    error of the provider is thrown unchanged. *)
Theorem waitForConfirmations_outcomes eth provider txHash confirmations :
  let count := match confirmations with Some c => c | None => 1 end in
  emitted (waitForConfirmations provider txHash confirmations) = [] /\
  (forall receipt,
     outcome (waitForConfirmations provider txHash confirmations)
     = Returned receipt <->
     waitForTransaction provider txHash count = Returned (Some receipt)) /\
  (waitForTransaction provider txHash count = Returned None ->
   outcome (waitForConfirmations provider txHash confirmations)
   = Threw (JsError.new (Some "Transaction not found"))) /\
  (forall e,
     waitForTransaction provider txHash count = Threw e ->
     outcome (waitForConfirmations provider txHash confirmations) = Threw e) /\
  (forall receipt,
     outcome (waitForConfirmations provider txHash None) = Returned receipt <->
     outcome (trackTransaction eth provider txHash) = Returned receipt).
Proof.
  cbv zeta. unfold outcome, emitted, run.
  split; [|split; [|split; [|split]]].
  - unfold waitForConfirmations, bind, await, ret, throw.
    destruct (waitForTransaction provider txHash _) as [[r|]|e|]; reflexivity.
  - intros receipt. unfold waitForConfirmations, bind, await, ret, throw.
    destruct (waitForTransaction provider txHash _) as [[r|]|e|]; simpl;
      split; intros H; try discriminate; injection H as <-; reflexivity.
  - intros H. unfold waitForConfirmations, bind, await, ret, throw.
    rewrite H. reflexivity.
  - intros e H. unfold waitForConfirmations, bind, await, ret, throw.
    rewrite H. reflexivity.
  - intros receipt. unfold waitForConfirmations at 1, bind, await, ret, throw.
    destruct (waitForTransaction provider txHash 1) as [[r|]|e|] eqn:Hw.
    + rewrite (trackTransaction_receipt _ _ _ _ _ Hw). reflexivity.
    + rewrite (trackTransaction_error eth provider txHash receiptNotFound [])
        by (rewrite Hw; reflexivity).
      simpl. split; discriminate.
    + rewrite (trackTransaction_error eth provider txHash e [])
        by (rewrite Hw; reflexivity).
      simpl. split; discriminate.
    + rewrite (trackTransaction_unsettled _ _ _ _ Hw). simpl.
      split; discriminate.
Qed.

Lemma waitForConfirmations_outcomes_witness :
  outcome (waitForConfirmations
             (sampleProvider (Returned (legacyFees 10)) (Returned None))
             "0xabc" (Some 3))
  = Threw (JsError.new (Some "Transaction not found")).
Proof.
  apply (proj1 (proj2 (proj2 (waitForConfirmations_outcomes sampleEthers
           (sampleProvider (Returned (legacyFees 10)) (Returned None))
           "0xabc" (Some 3))))).
  reflexivity.
Defined.

(** ** Deployment script *)

(** X17: once the contract is deployed (the six awaited steps resolve),
    the script exits with code 0 whatever happens to its side tasks,
    provided a started verification settles: it attempts to write the
    deployment record (unless serializing it throws) and then the
    constants module, a failed write stopping neither the other write nor
    the script; it starts the verification exactly when the Etherscan key
    is set and non-empty and the network is named "sepolia", and a failed
    verification does not change the exit code. *)
Theorem deploy_script_best_effort env address block net :
  Deploy.deployed env address block net ->
  (Deploy.shouldVerify (Deploy.ETHERSCAN_API_KEY env) (Deploy.name net) = true ->
   Deploy.runVerify env address <> Unsettled) ->
  Deploy.script env =
  match
    Deploy.stringify env
      {| Deploy.contractAddress := address;
         Deploy.deploymentBlock := block;
         Deploy.deploymentTime := Deploy.now env;
         Deploy.network := net;
         Deploy.txHash :=
           match Deploy.deploymentTransaction env with
           | Some h => if String.eqb h "" then "unknown" else h
           | None => "unknown"
           end |}
  with
  | inr content =>
    [Deploy.WriteFile (Deploy.deploymentPath env (Deploy.name net)) content]
  | inl _ => []
  end
  ++ [Deploy.WriteFile (Deploy.constantsPath env)
        (Deploy.constantsContent env address)]
  ++ (if Deploy.shouldVerify (Deploy.ETHERSCAN_API_KEY env) (Deploy.name net)
      then [Deploy.Verify address] else [])
  ++ [Deploy.Exit 0].
Proof.
  intros (H1 & H2 & H3 & H4 & H5 & H6) Hv.
  unfold Deploy.script, Deploy.main, Deploy.bind at 1, Deploy.await at 1.
  rewrite H1. unfold Deploy.bind at 1, Deploy.await at 1. rewrite H2.
  unfold Deploy.bind at 1, Deploy.await at 1. rewrite H3.
  unfold Deploy.bind at 1, Deploy.await at 1. rewrite H4.
  cbv zeta.
  unfold Deploy.bind at 1, Deploy.await at 1. rewrite H5.
  unfold Deploy.bind at 1, Deploy.await at 1. rewrite H6.
  unfold Deploy.bind, Deploy.try_catch, Deploy.writeFile, Deploy.bind,
    Deploy.await, Deploy.emit, Deploy.ret, settled.
  destruct (Deploy.stringify env _) as [e|content];
    repeat match goal with
           | |- context [Deploy.writeFileSync env ?p ?c] =>
             destruct (Deploy.writeFileSync env p c) as [?|[]]
           end;
    cbn [app];
    (destruct (Deploy.shouldVerify _ _);
     [ specialize (Hv eq_refl);
       destruct (Deploy.runVerify env address) as [[]|?|];
       [reflexivity | reflexivity | now contradiction Hv]
     | reflexivity ]).
Qed.

Lemma deploy_script_best_effort_witness :
  Deploy.script (sampleDeployEnv "sepolia" (Some "KEY")) =
  [Deploy.WriteFile "/app/deployments/credit-analyzer-sepolia.json" "0xC0FFEE";
   Deploy.WriteFile "/app/src/utils/constants.ts" "0xC0FFEE";
   Deploy.Verify "0xC0FFEE";
   Deploy.Exit 0].
Proof.
  apply (deploy_script_best_effort (sampleDeployEnv "sepolia" (Some "KEY"))
           "0xC0FFEE" 42
           {| Deploy.name := "sepolia"; Deploy.chainId := 11155111 |}).
  - repeat split.
  - intros _. discriminate.
Defined.

(** X18: when one of the six awaited deployment steps throws (the steps
    before it having resolved), the script exits with code 1 and has
    written no file and started no verification. *)
Theorem deploy_script_failure env :
  Deploy.deploymentFailed env ->
  Deploy.script env = [Deploy.Exit 1].
Proof.
  unfold Deploy.deploymentFailed, Deploy.script, Deploy.main.
  intros [(e & H1)|(H1 & [(e & H2)|(H2 & [(e & H3)|(H3 & [(e & H4)|
    (a & H4 & [(e & H5)|(b & H5 & e & H6)])])])])];
    unfold Deploy.bind at 1, Deploy.await at 1; rewrite H1; try reflexivity;
    unfold Deploy.bind at 1, Deploy.await at 1; rewrite H2; try reflexivity;
    unfold Deploy.bind at 1, Deploy.await at 1; rewrite H3; try reflexivity;
    unfold Deploy.bind at 1, Deploy.await at 1; rewrite H4; try reflexivity;
    cbv zeta;
    unfold Deploy.bind at 1, Deploy.await at 1; rewrite H5; try reflexivity;
    unfold Deploy.bind at 1, Deploy.await at 1; rewrite H6; reflexivity.
Qed.

Lemma deploy_script_failure_witness :
  Deploy.script sampleFailedDeployEnv = [Deploy.Exit 1].
Proof.
  apply (deploy_script_failure sampleFailedDeployEnv).
  right. split; [reflexivity|]. left. exists networkError. reflexivity.
Defined.
